(** * Task-management API: the route handlers of [app/api/tasks/route.ts]
      over the schema of [prisma/schema.prisma]

    The three handlers ([POST], [GET], [DELETE]) are embedded as functions in
    a small state-and-exception monad.  The state is the database (three
    tables, rows in the storage engine's scan order) together with the parts
    of the environment the handlers consult: the id generator behind
    [@default(cuid())], the clock behind [@default(now())], and a schedule
    telling which of the coming storage calls is going to fail for reasons
    outside the program (lost connection, full disk).

    Modelling choices, all visible in the definitions below:
    - the request body is a JSON object whose scalar members are arbitrary
      JSON scalars ([jsval], with [JUndefined] for an absent member) and
      whose [labels] member is absent or an array of objects;
    - numbers are integers; a string is the sequence of bytes of its UTF-8
      encoding, which is how SQLite stores and compares it;
    - the clock is read as one value for the whole of a request;
    - [new Date(v).getTime()] and [cuid()] belong to the runtime and are
      Section variables: every theorem holds for any choice of them. *)

From Stdlib Require Import String Ascii List ZArith Bool Lia DecimalString.
From Stdlib Require Import Sorted Permutation.
Import ListNotations.
Local Open Scope string_scope.
Local Open Scope list_scope.

(** ** JavaScript values read from a request *)

Inductive jsval : Type :=
| JUndefined
| JNull
| JBool (b : bool)
| JNum (n : Z)
| JStr (s : string).

(** ToBoolean: what [if (v)], [v ? a : b], [!v], [v && w] and [v || w] test. *)
Definition truthy (v : jsval) : bool :=
  match v with
  | JUndefined | JNull => false
  | JBool b => b
  | JNum n => negb (n =? 0)%Z
  | JStr s => negb (s =? "")
  end.

(** [a || b] *)
Definition js_or (a b : jsval) : jsval := if truthy a then a else b.

(** ** The schema: [prisma/schema.prisma] *)

Module Task.
Record t : Type := mk {
  id : string;
  title : string;
  description : option string;
  priority : string;
  status : string;
  dueDate : option Z;
  createdAt : Z;
  updatedAt : Z
}.
End Task.

Module Label.
Record t : Type := mk {
  id : string;
  name : string;
  color : string;
  createdAt : Z;
  updatedAt : Z
}.
End Label.

Module TaskLabel.
Record t : Type := mk {
  taskId : string;
  labelId : string
}.
End TaskLabel.

(** [@default("MEDIUM")], [@default("TODO")], [@default("#3b82f6")] *)
Definition default_priority : string := "MEDIUM".
Definition default_status : string := "TODO".
Definition default_color : string := "#3b82f6".

Record Db : Type := mkDb {
  tasks : list Task.t;
  labels : list Label.t;
  taskLabels : list TaskLabel.t
}.

(** ** The world a handler runs in *)

Record World : Type := mkWorld {
  db : Db;
  faults : list bool;  (* one flag per coming storage call; [true] = it fails *)
  cuids : nat;         (* how many ids the generator has handed out *)
  now : Z              (* the clock *)
}.

Definition set_db (d : Db) (w : World) : World :=
  mkWorld d (faults w) (cuids w) (now w).

(** ** Exceptions and the handler monad *)

Inductive Exn : Type :=
| SyntaxError                                  (* request.json() on a bad body *)
| PrismaClientValidationError (field : string) (* argument of the wrong shape *)
| UniqueConstraintViolation (target : string)  (* P2002 *)
| ForeignKeyViolation (target : string)        (* P2003 *)
| RecordNotFound                               (* P2025 *)
| StorageFailure.                              (* the engine could not run the call *)

Inductive Result (A : Type) : Type :=
| Ok (a : A)
| Throw (e : Exn).
Arguments Ok {A} a.
Arguments Throw {A} e.

(** An [async] computation: it ends in a value or in a thrown exception, and
    what it did to the world before throwing stays done. *)
Definition M (A : Type) : Type := World -> Result A * World.

Definition ret {A} (a : A) : M A := fun w => (Ok a, w).

Definition throw {A} (e : Exn) : M A := fun w => (Throw e, w).

Definition bind {A B} (m : M A) (k : A -> M B) : M B :=
  fun w =>
    match m w with
    | (Ok a, w') => k a w'
    | (Throw e, w') => (Throw e, w')
    end.

Definition lift {A} (r : Result A) : M A := fun w => (r, w).

(** [try { m } catch (error) { h error }] *)
Definition try_catch {A} (m : M A) (h : Exn -> M A) : M A :=
  fun w =>
    match m w with
    | (Ok a, w') => (Ok a, w')
    | (Throw e, w') => h e w'
    end.

Declare Scope handler_scope.
Delimit Scope handler_scope with handler.
Notation "x <- m ;; k" := (bind m (fun x => k))
  (at level 61, m at next level, right associativity) : handler_scope.
Notation "m ;; k" := (bind m (fun _ => k))
  (at level 61, right associativity) : handler_scope.
Local Open Scope handler_scope.

Definition get_db : M Db := fun w => (Ok (db w), w).
Definition put_db (d : Db) : M unit := fun w => (Ok tt, set_db d w).
Definition clock : M Z := fun w => (Ok (now w), w).

(** Every storage call goes to the engine, which may fail before doing
    anything; the schedule says whether this one does. *)
Definition engine_call : M unit :=
  fun w =>
    match faults w with
    | [] => (Ok tt, w)
    | false :: fs => (Ok tt, mkWorld (db w) fs (cuids w) (now w))
    | true :: fs => (Throw StorageFailure, mkWorld (db w) fs (cuids w) (now w))
    end.

(** [prisma.$transaction(async (prisma) => body)]: the rows written by [body]
    are kept when it returns and discarded when it throws. *)
Definition transaction {A} (body : M A) : M A :=
  fun w =>
    match body w with
    | (Ok a, w') => (Ok a, w')
    | (Throw e, w') => (Throw e, set_db (db w) w')
    end.

(** ** The Prisma client, as far as the handlers call it *)

(** How the client checks an argument against the column it is for. *)
Definition required_string (field : string) (v : jsval) : Result string :=
  match v with
  | JStr s => Ok s
  | _ => Throw (PrismaClientValidationError field)
  end.

Definition optional_string (field : string) (v : jsval) : Result (option string) :=
  match v with
  | JUndefined | JNull => Ok None
  | JStr s => Ok (Some s)
  | _ => Throw (PrismaClientValidationError field)
  end.

Definition defaulted_string (field dflt : string) (v : jsval) : Result string :=
  match v with
  | JUndefined => Ok dflt
  | JStr s => Ok s
  | _ => Throw (PrismaClientValidationError field)
  end.

(** The time values the engine can read back from the ISO string the client
    sends: years 0000 to 9999, that is 0000-01-01T00:00:00.000Z to
    9999-12-31T23:59:59.999Z. *)
Definition storable_time (t : Z) : bool :=
  ((-62167219200000 <=? t) && (t <=? 253402300799999))%Z.

(** A [Date] object is its time value, [None] for an Invalid Date; a
    [DateTime?] column takes [null] or a valid [Date] of a four-digit year. *)
Definition optional_datetime (field : string) (v : option (option Z))
  : Result (option Z) :=
  match v with
  | None => Ok None
  | Some (Some t) =>
      if storable_time t then Ok (Some t)
      else Throw (PrismaClientValidationError field)
  | Some None => Throw (PrismaClientValidationError field)
  end.

(** A [where] filter on a [String] column: [undefined] is no filter. *)
Definition string_filter (field : string) (v : jsval) : Result (option string) :=
  match v with
  | JUndefined => Ok None
  | JStr s => Ok (Some s)
  | _ => Throw (PrismaClientValidationError field)
  end.

Record TaskCreateInput : Type := mkTaskCreateInput {
  in_title : jsval;
  in_description : jsval;
  in_priority : jsval;
  in_status : jsval;
  in_dueDate : option (option Z)
}.

(** [where] of [task.findMany]: the members the handler may set. *)
Record TaskWhere : Type := mkTaskWhere {
  where_labels : option (list string);   (* labels.some.label.name.in *)
  where_status : option (list string);   (* status.in *)
  where_priority : option (list string)  (* priority.in *)
}.

(** A task with [include: { labels: { include: { label: true } } }]. *)
Record TaskWithLabels : Type := mkTaskWithLabels {
  task : Task.t;
  task_labels : list (TaskLabel.t * Label.t)
}.

Definition mem (s : string) (l : list string) : bool :=
  existsb (String.eqb s) l.

Definition name_matches (filter : option string) (l : Label.t) : bool :=
  match filter with
  | None => true
  | Some n => Label.name l =? n
  end.

(** Of [best] and [rows], the row of least color, the earliest such. *)
Fixpoint least_color (best : Label.t) (rows : list Label.t) : Label.t :=
  match rows with
  | [] => best
  | l :: rest =>
      least_color (if String.ltb (Label.color l) (Label.color best) then l else best)
        rest
  end.

(** The row a [findFirst] without [orderBy] returns.  With a filter on the
    name, SQLite walks the index of [@@unique([name, color])]: of the rows
    carrying the name, the one of least color comes first.  With no filter
    it scans the table: the first row comes first. *)
Definition findFirst_row (filter : option string) (ls : list Label.t)
  : option Label.t :=
  match filter with
  | None => hd_error ls
  | Some n =>
      match List.filter (fun l => Label.name l =? n) ls with
      | [] => None
      | l :: rest => Some (least_color l rest)
      end
  end.
Arguments findFirst_row : simpl never.

(** Association rows of one task come out of the primary-key index of
    [TaskLabel], so by increasing [labelId]. *)
Fixpoint insert_by_labelId (tl : TaskLabel.t) (l : list TaskLabel.t)
  : list TaskLabel.t :=
  match l with
  | [] => [tl]
  | u :: r =>
      if String.leb (TaskLabel.labelId tl) (TaskLabel.labelId u)
      then tl :: l
      else u :: insert_by_labelId tl r
  end.

Definition order_by_labelId (l : list TaskLabel.t) : list TaskLabel.t :=
  fold_right insert_by_labelId [] l.

(** The association rows of a task, each joined with its label row. *)
Definition labels_of (d : Db) (tid : string) : list (TaskLabel.t * Label.t) :=
  flat_map
    (fun tl =>
       map (fun l => (tl, l))
           (filter (fun l => Label.id l =? TaskLabel.labelId tl) (labels d)))
    (order_by_labelId
       (filter (fun tl => TaskLabel.taskId tl =? tid) (taskLabels d))).

Definition opt_holds {A} (o : option A) (p : A -> bool) : bool :=
  match o with
  | None => true
  | Some a => p a
  end.

Definition task_matches (d : Db) (wh : TaskWhere) (t : Task.t) : bool :=
  opt_holds (where_labels wh)
    (fun names =>
       existsb (fun p => mem (Label.name (snd p)) names) (labels_of d (Task.id t)))
  && opt_holds (where_status wh) (mem (Task.status t))
  && opt_holds (where_priority wh) (mem (Task.priority t)).

(** [orderBy: { dueDate: 'asc' }]; SQLite puts NULL first. *)
Definition dueDate_le (a b : Task.t) : bool :=
  match Task.dueDate a, Task.dueDate b with
  | None, _ => true
  | Some _, None => false
  | Some x, Some y => (x <=? y)%Z
  end.

Fixpoint insert_by_dueDate (t : Task.t) (l : list Task.t) : list Task.t :=
  match l with
  | [] => [t]
  | u :: r => if dueDate_le t u then t :: l else u :: insert_by_dueDate t r
  end.

Definition order_by_dueDate (l : list Task.t) : list Task.t :=
  fold_right insert_by_dueDate [] l.

Section PrismaClient.

(** The id generator: the [n]-th value of [cuid()]. *)
Variable cuid : nat -> string.

Definition fresh_cuid : M string :=
  fun w => (Ok (cuid (cuids w)), mkWorld (db w) (faults w) (S (cuids w)) (now w)).

(** [prisma.task.create({ data })] *)
Definition task_create (data : TaskCreateInput) : M Task.t :=
  title <- lift (required_string "title" (in_title data));;
  description <- lift (optional_string "description" (in_description data));;
  priority <- lift (defaulted_string "priority" default_priority (in_priority data));;
  status <- lift (defaulted_string "status" default_status (in_status data));;
  dueDate <- lift (optional_datetime "dueDate" (in_dueDate data));;
  engine_call;;
  id <- fresh_cuid;;
  ts <- clock;;
  d <- get_db;;
  let row := Task.mk id title description priority status dueDate ts ts in
  put_db (mkDb (tasks d ++ [row]) (labels d) (taskLabels d));;
  ret row.

(** [prisma.label.findFirst({ where: { name } })] *)
Definition label_findFirst (name : jsval) : M (option Label.t) :=
  filter <- lift (string_filter "name" name);;
  engine_call;;
  d <- get_db;;
  ret (findFirst_row filter (labels d)).

(** [prisma.label.create({ data: { name, color } })]; [@@unique([name, color])] *)
Definition label_create (name color : jsval) : M Label.t :=
  name <- lift (required_string "name" name);;
  color <- lift (defaulted_string "color" default_color color);;
  engine_call;;
  d <- get_db;;
  if existsb (fun l => (Label.name l =? name) && (Label.color l =? color)) (labels d)
  then throw (UniqueConstraintViolation "Label_name_color_key")
  else
    id <- fresh_cuid;;
    ts <- clock;;
    let row := Label.mk id name color ts ts in
    put_db (mkDb (tasks d) (labels d ++ [row]) (taskLabels d));;
    ret row.

(** [prisma.taskLabel.create({ data: { taskId, labelId } })];
    [@@id([taskId, labelId])] and the two [@relation]s. *)
Definition taskLabel_create (taskId labelId : string) : M TaskLabel.t :=
  engine_call;;
  d <- get_db;;
  if existsb (fun tl => (TaskLabel.taskId tl =? taskId)
                        && (TaskLabel.labelId tl =? labelId)) (taskLabels d)
  then throw (UniqueConstraintViolation "TaskLabel_pkey")
  else if negb (existsb (fun t => Task.id t =? taskId) (tasks d))
  then throw (ForeignKeyViolation "TaskLabel_taskId_fkey")
  else if negb (existsb (fun l => Label.id l =? labelId) (labels d))
  then throw (ForeignKeyViolation "TaskLabel_labelId_fkey")
  else
    let row := TaskLabel.mk taskId labelId in
    put_db (mkDb (tasks d) (labels d) (taskLabels d ++ [row]));;
    ret row.

(** [prisma.taskLabel.deleteMany({ where: { taskId } })] *)
Definition taskLabel_deleteMany (taskId : string) : M nat :=
  engine_call;;
  d <- get_db;;
  let gone := filter (fun tl => TaskLabel.taskId tl =? taskId) (taskLabels d) in
  let kept := filter (fun tl => negb (TaskLabel.taskId tl =? taskId)) (taskLabels d) in
  put_db (mkDb (tasks d) (labels d) kept);;
  ret (length gone).

(** [prisma.task.delete({ where: { id } })]; no cascade is configured, so a
    task that still has association rows cannot be deleted. *)
Definition task_delete (id : string) : M Task.t :=
  engine_call;;
  d <- get_db;;
  match find (fun t => Task.id t =? id) (tasks d) with
  | None => throw RecordNotFound
  | Some row =>
      if existsb (fun tl => TaskLabel.taskId tl =? id) (taskLabels d)
      then throw (ForeignKeyViolation "TaskLabel_taskId_fkey")
      else
        put_db (mkDb (filter (fun t => negb (Task.id t =? id)) (tasks d))
                     (labels d) (taskLabels d));;
        ret row
  end.

(** [prisma.task.findMany({ where, orderBy: { dueDate: 'asc' }, include })] *)
Definition task_findMany (wh : option TaskWhere) : M (list TaskWithLabels) :=
  engine_call;;
  d <- get_db;;
  let selected :=
    match wh with
    | None => tasks d
    | Some c => filter (task_matches d c) (tasks d)
    end in
  ret (map (fun t => mkTaskWithLabels t (labels_of d (Task.id t)))
           (order_by_dueDate selected)).

End PrismaClient.

(** ** Requests and responses *)

Module LabelData.
(** One entry of [data.labels]. *)
Record t : Type := mk {
  name : jsval;
  color : jsval
}.
End LabelData.

Module Data.
(** What [await request.json()] yields for a create request. *)
Record t : Type := mk {
  title : jsval;
  description : jsval;
  priority : jsval;
  status : jsval;
  dueDate : jsval;
  labels : option (list LabelData.t)
}.
End Data.

Record Request : Type := mkRequest {
  searchParams : list (string * string);  (* the query string of [request.url] *)
  json : option Data.t                    (* the body; [None] when it is not JSON *)
}.

Definition request_json (request : Request) : M Data.t :=
  match json request with
  | Some data => ret data
  | None => throw SyntaxError
  end.

(** [searchParams.get(key)] and [searchParams.getAll(key)] *)
Definition searchParams_get (key : string) (sp : list (string * string))
  : option string :=
  match find (fun kv => fst kv =? key) sp with
  | Some kv => Some (snd kv)
  | None => None
  end.

Definition searchParams_getAll (key : string) (sp : list (string * string))
  : list string :=
  map snd (filter (fun kv => fst kv =? key) sp).

Inductive Body : Type :=
| TaskJson (t : Task.t)
| TasksJson (l : list TaskWithLabels)
| ErrorJson (error : string)
| ErrorDetailsJson (error : string) (details : Exn)  (* details: the caught error *)
| DeletedJson (success : bool) (message : string) (data : Task.t).

Record Response : Type := mkResponse {
  status : nat;
  body : Body
}.

(** [NextResponse.json(body, { status })]; the status is 200 when left out. *)
Definition NextResponse_json (b : Body) (init : option nat) : Response :=
  match init with
  | Some s => mkResponse s b
  | None => mkResponse 200 b
  end.

(** ** The validation schemas: [LabelSchema] and [CreateTaskSchema] *)

Definition is_hex_digit (c : ascii) : bool :=
  let n := nat_of_ascii c in
  (((48 <=? n) && (n <=? 57)) || ((65 <=? n) && (n <=? 70))
   || ((97 <=? n) && (n <=? 102)))%nat.

(** [/^#([0-9A-F]{3}){1,2}$/i] *)
Definition hex_color (s : string) : bool :=
  match s with
  | String "#" r =>
      forallb is_hex_digit (list_ascii_of_string r)
      && ((String.length r =? 3)%nat || (String.length r =? 6)%nat)
  | _ => false
  end.

Definition LabelSchema (l : LabelData.t) : bool :=
  match LabelData.name l with
  | JStr _ =>
      match LabelData.color l with
      | JUndefined => true
      | JStr c => hex_color c
      | _ => false
      end
  | _ => false
  end.

(** The [length] of a JavaScript string, in UTF-16 code units, read off its
    UTF-8 bytes: one unit per character of one, two or three bytes, two
    units per character of four bytes. *)
Definition utf16_units (c : ascii) : nat :=
  let n := nat_of_ascii c in
  if (n <? 128)%nat then 1
  else if (n <? 192)%nat then 0
  else if (n <? 240)%nat then 1
  else 2.

Fixpoint utf16_length (s : string) : nat :=
  match s with
  | EmptyString => 0
  | String c r => utf16_units c + utf16_length r
  end.

Definition one_of (allowed : list string) (v : jsval) : bool :=
  match v with
  | JUndefined => true
  | JStr s => mem s allowed
  | _ => false
  end.

Section Route.

(** [new Date(v).getTime()]: [None] is NaN, the time value of an Invalid Date. *)
Variable Date_getTime : jsval -> option Z.
Variable cuid : nat -> string.

(** Whether [CreateTaskSchema] accepts a body. *)
Definition CreateTaskSchema (data : Data.t) : bool :=
  match Data.title data with
  | JStr s => (1 <=? utf16_length s)%nat && (utf16_length s <=? 100)%nat
  | _ => false
  end
  && match Data.description data with
     | JUndefined | JStr _ => true
     | _ => false
     end
  && one_of ["LOW"; "MEDIUM"; "HIGH"] (Data.priority data)
  && one_of ["TODO"; "IN_PROGRESS"; "DONE"] (Data.status data)
  && match Data.dueDate data with
     | JUndefined => true
     | JStr s => negb (truthy (JStr s))
                 || match Date_getTime (JStr s) with Some _ => true | None => false end
     | _ => false
     end
  && match Data.labels data with
     | None => true
     | Some l => forallb LabelSchema l
     end.

(** ** [POST] *)

(** One round of the [while] loop over [labelData]. *)
Definition process_label (taskId : string) (label : LabelData.t) : M unit :=
  existingLabel <- label_findFirst (LabelData.name label);;
  labelId <- match existingLabel with
             | Some l => ret (Label.id l)
             | None =>
                 newLabel <- label_create cuid (LabelData.name label)
                               (js_or (LabelData.color label) (JStr default_color));;
                 ret (Label.id newLabel)
             end;;
  taskLabel_create taskId labelId;;
  ret tt.

(** The loop: [labelIndex] runs from 0 to [labelData.length], so the
    entries are taken in order. *)
Fixpoint process_labels (taskId : string) (labelData : list LabelData.t)
  : M unit :=
  match labelData with
  | [] => ret tt
  | label :: rest => process_label taskId label;; process_labels taskId rest
  end.

(** The function passed to [prisma.$transaction]. *)
Definition create_task (data : Data.t) (dueDate : option (option Z))
  : M Task.t :=
  createdTask <- task_create cuid
                   (mkTaskCreateInput (Data.title data) (Data.description data)
                      (Data.priority data) (Data.status data) dueDate);;
  let labelData := match Data.labels data with
                   | Some l => l
                   | None => []
                   end in
  process_labels (Task.id createdTask) labelData;;
  ret createdTask.

(** [const dueDate = data.dueDate ? new Date(data.dueDate) : null] *)
Definition dueDate_of (data : Data.t) : option (option Z) :=
  if truthy (Data.dueDate data)
  then Some (Date_getTime (Data.dueDate data))
  else None.

(** [isNaN(dueDate!.getTime())] *)
Definition isNaN_time (d : option (option Z)) : bool :=
  match d with
  | Some None => true
  | _ => false
  end.

(** [data.dueDate && isNaN(dueDate!.getTime())] *)
Definition invalid_dueDate (data : Data.t) : bool :=
  truthy (Data.dueDate data) && isNaN_time (dueDate_of data).

Definition POST (request : Request) : M Response :=
  try_catch
    (data <- request_json request;;
     let dueDate := dueDate_of data in
     if invalid_dueDate data
     then ret (NextResponse_json (ErrorJson "Invalid due date format") (Some 400))
     else
       task <- transaction (create_task data dueDate);;
       ret (NextResponse_json (TaskJson task) None))
    (fun error =>
       ret (NextResponse_json (ErrorJson "Failed to create task") (Some 500))).

(** ** [GET] *)

Definition some_if_nonempty (l : list string) : option (list string) :=
  match l with
  | [] => None
  | _ => Some l
  end.

(** [Object.keys(whereClause).length > 0] *)
Definition has_keys (wh : TaskWhere) : bool :=
  match where_labels wh, where_status wh, where_priority wh with
  | None, None, None => false
  | _, _, _ => true
  end.

Definition GET (request : Request) : M Response :=
  try_catch
    (let labelNames := searchParams_getAll "label" (searchParams request) in
     let statuses := searchParams_getAll "status" (searchParams request) in
     let priorities := searchParams_getAll "priority" (searchParams request) in
     let whereClause := mkTaskWhere (some_if_nonempty labelNames)
                          (some_if_nonempty statuses)
                          (some_if_nonempty priorities) in
     tasks <- task_findMany (if has_keys whereClause then Some whereClause else None);;
     ret (NextResponse_json (TasksJson tasks) None))
    (fun error =>
       ret (NextResponse_json (ErrorJson "Failed to fetch tasks") (Some 500))).

(** ** [DELETE] *)

(** [!taskId] for the [string | null] that [searchParams.get] returns. *)
Definition missing (taskId : option string) : bool :=
  match taskId with
  | None => true
  | Some s => s =? ""
  end.

Definition DELETE (request : Request) : M Response :=
  try_catch
    (let taskId := searchParams_get "id" (searchParams request) in
     if missing taskId
     then ret (NextResponse_json (ErrorJson "Task ID is required") (Some 400))
     else
       let taskId := match taskId with Some id => id | None => "" end in
       taskLabel_deleteMany taskId;;
       deletedTask <- task_delete taskId;;
       ret (NextResponse_json
              (DeletedJson true "Task deleted successfully" deletedTask) None))
    (fun error =>
       ret (NextResponse_json (ErrorDetailsJson "Failed to delete task" error)
              (Some 500))).

End Route.

(** ** A runtime to run the handlers on concrete requests *)

(** Stands for [cuid()]: a "c" followed by the running count. *)
Definition example_cuid (n : nat) : string :=
  "c" ++ NilEmpty.string_of_uint (Nat.to_uint n).

(** Stands for [new Date(v).getTime()].  On [null], booleans and numbers it
    is ToNumber followed by TimeClip; of the strings it knows the dates
    written out here and takes the others, among them the empty string and
    "not-a-date", to be unparseable. *)
Definition example_Date_getTime (v : jsval) : option Z :=
  match v with
  | JUndefined => None
  | JNull => Some 0%Z
  | JBool b => Some (if b then 1 else 0)%Z
  | JNum n => if (Z.abs n <=? 8640000000000000)%Z then Some n else None
  | JStr s =>
      if s =? "2024-01-15" then Some 1705276800000%Z
      else if s =? "2024-01-15T12:00:00.000Z" then Some 1705320000000%Z
      else if s =? "1970-01-01" then Some 0%Z
      else None
  end.

Definition empty_db : Db := mkDb [] [] [].

Definition post (data : Data.t) : Request := mkRequest [] (Some data).

Definition run_POST : Request -> M Response := POST example_Date_getTime example_cuid.


(** ** Sample requests and databases *)

Definition at_2023 : Z := 1700000000000.

(** A database with one task tagged "work" (red) and one untagged task. *)
Definition report_task : Task.t :=
  Task.mk "c0" "Write report" None "HIGH" "TODO" (Some 1705276800000%Z) at_2023 at_2023.
Definition walk_task : Task.t :=
  Task.mk "c2" "Walk the dog" None "LOW" "DONE" None at_2023 at_2023.
Definition cook_task : Task.t :=
  Task.mk "c3" "Cook" None "HIGH" "IN_PROGRESS" None at_2023 at_2023.
Definition work_label : Label.t :=
  Label.mk "c1" "work" "#ff0000" at_2023 at_2023.
Definition sample_db : Db :=
  mkDb [report_task; walk_task; cook_task] [work_label] [TaskLabel.mk "c0" "c1"].

(** The engine is up. *)
Definition sample_world : World := mkWorld sample_db [] 4 at_2023.
(** The engine answers the first call and fails the second. *)
Definition second_call_fails : World := mkWorld sample_db [false; true] 4 at_2023.
(** The engine answers two calls and fails the third. *)
Definition third_call_fails : World := mkWorld sample_db [false; false; true] 4 at_2023.

Definition title_only : Data.t :=
  Data.mk (JStr "Buy milk") JUndefined JUndefined JUndefined JUndefined None.
Definition urgent : Data.t :=
  Data.mk (JStr "Buy milk") JUndefined (JStr "URGENT") JUndefined JUndefined None.
Definition empty_title : Data.t :=
  Data.mk (JStr "") JUndefined JUndefined JUndefined JUndefined None.
Definition long_title : Data.t :=
  Data.mk (JStr (string_of_list_ascii (repeat "a"%char 101)))
    JUndefined JUndefined JUndefined JUndefined None.
Definition not_a_date : Data.t :=
  Data.mk (JStr "Buy milk") JUndefined JUndefined JUndefined (JStr "not-a-date") None.
Definition empty_dueDate : Data.t :=
  Data.mk (JStr "Buy milk") JUndefined JUndefined JUndefined (JStr "") None.
Definition with_new_label : Data.t :=
  Data.mk (JStr "Plan trip") JUndefined JUndefined JUndefined JUndefined
    (Some [LabelData.mk (JStr "travel") JUndefined]).
Definition work_twice : Data.t :=
  Data.mk (JStr "Plan trip") JUndefined JUndefined JUndefined JUndefined
    (Some [LabelData.mk (JStr "work") (JStr "#ff0000");
           LabelData.mk (JStr "work") (JStr "#00ff00")]).
Definition work_twice_not_a_date : Data.t :=
  Data.mk (JStr "Plan trip") JUndefined JUndefined JUndefined (JStr "not-a-date")
    (Some [LabelData.mk (JStr "work") (JStr "#ff0000");
           LabelData.mk (JStr "work") (JStr "#00ff00")]).

(** An empty database behind an engine that is up. *)
Definition fresh_world : World := mkWorld empty_db [] 0 at_2023.

(** The rows the sample requests produce on [fresh_world]. *)
Definition milk_row : Task.t :=
  Task.mk "c0" "Buy milk" None "MEDIUM" "TODO" None at_2023 at_2023.
Definition urgent_row : Task.t :=
  Task.mk "c0" "Buy milk" None "URGENT" "TODO" None at_2023 at_2023.
Definition untitled_row : Task.t :=
  Task.mk "c0" "" None "MEDIUM" "TODO" None at_2023 at_2023.
Definition long_row : Task.t :=
  Task.mk "c0" (string_of_list_ascii (repeat "a"%char 101)) None "MEDIUM" "TODO" None
    at_2023 at_2023.

Definition no_title : Data.t :=
  Data.mk JUndefined JUndefined JUndefined JUndefined JUndefined None.

(** [?status=DONE&status=TODO&priority=HIGH] *)
Definition done_or_todo_and_high : Request :=
  mkRequest [("status", "DONE"); ("status", "TODO"); ("priority", "HIGH")] None.

(** [?id=c0] and [?id=] *)
Definition delete_report : Request := mkRequest [("id", "c0")] None.
Definition delete_nothing : Request := mkRequest [("id", "")] None.

(** Where the transaction of [with_new_label] stands on [third_call_fails]
    when the label insert throws: the task row is written, the label is not. *)
Definition before_rollback : World :=
  mkWorld (mkDb (tasks sample_db
                 ++ [Task.mk "c4" "Plan trip" None "MEDIUM" "TODO" None at_2023 at_2023])
                (labels sample_db) (taskLabels sample_db))
          [] 5 at_2023.

(** ** Vocabulary of the statements *)

(** Task [tid] is associated with the label row that a lookup of the name
    [n] returns. *)
Definition linked (tid n : string) (d : Db) : Prop :=
  exists l,
    findFirst_row (Some n) (labels d) = Some l
    /\ In (TaskLabel.mk tid (Label.id l)) (taskLabels d).

(** The association row [tl] is the one a round of the label loop writes
    for [entry] and task [tid]: it links the task to the row that a lookup
    of the entry's name returns in [d]. *)
Definition association_of (d : Db) (tid : string) (entry : LabelData.t)
    (tl : TaskLabel.t) : Prop :=
  TaskLabel.taskId tl = tid
  /\ exists f l,
      string_filter "name" (LabelData.name entry) = Ok f
      /\ findFirst_row f (labels d) = Some l
      /\ TaskLabel.labelId tl = Label.id l.

(** Task [t] has an association row whose label row carries one of [names]. *)
Definition has_label_among (d : Db) (t : Task.t) (names : list string) : Prop :=
  exists tl l,
    In tl (taskLabels d) /\ TaskLabel.taskId tl = Task.id t
    /\ In l (labels d) /\ Label.id l = TaskLabel.labelId tl
    /\ In (Label.name l) names.

(** What [with_new_label] leaves behind on [sample_world]. *)
Definition trip_row : Task.t :=
  Task.mk "c4" "Plan trip" None "MEDIUM" "TODO" None at_2023 at_2023.
Definition travel_label : Label.t :=
  Label.mk "c5" "travel" "#3b82f6" at_2023 at_2023.
Definition after_trip : World :=
  mkWorld (mkDb [report_task; walk_task; cook_task; trip_row]
                [work_label; travel_label]
                [TaskLabel.mk "c0" "c1"; TaskLabel.mk "c4" "c5"])
          [] 6 at_2023.

(** A body that every rule of [CreateTaskSchema] accepts. *)
Definition well_formed : Data.t :=
  Data.mk (JStr "Plan trip") (JStr "by train") (JStr "HIGH") (JStr "IN_PROGRESS")
    (JStr "2024-01-15")
    (Some [LabelData.mk (JStr "travel") (JStr "#0a0"); LabelData.mk (JStr "work") JUndefined]).

(** [?label=travel], [?id=c4], [?id=c9] and a request with no query. *)
Definition labelled_travel : Request := mkRequest [("label", "travel")] None.
Definition delete_trip : Request := mkRequest [("id", "c4")] None.
Definition delete_unknown : Request := mkRequest [("id", "c9")] None.
Definition list_all : Request := mkRequest [] None.

(** The engine fails the first call. *)
Definition first_call_fails : World := mkWorld sample_db [true] 4 at_2023.

(** [sample_db] once the task c0 and its association are deleted. *)
Definition after_delete_report : World :=
  mkWorld (mkDb [walk_task; cook_task] [work_label] []) [] 4 at_2023.

(** A database where "work" exists twice, in red (inserted first) and in
    green, and a request for a new label and for "work" in blue. *)
Definition work_green : Label.t :=
  Label.mk "c5" "work" "#00ff00" at_2023 at_2023.
Definition two_works : World :=
  mkWorld (mkDb [report_task] [work_label; work_green] [TaskLabel.mk "c0" "c1"])
          [] 6 at_2023.
Definition travel_and_work : Data.t :=
  Data.mk (JStr "Fix bug") JUndefined JUndefined JUndefined JUndefined
    (Some [LabelData.mk (JStr "travel") JUndefined;
           LabelData.mk (JStr "work") (JStr "#0000ff")]).
Definition bug_row : Task.t :=
  Task.mk "c6" "Fix bug" None "MEDIUM" "TODO" None at_2023 at_2023.
Definition after_bug : World :=
  mkWorld (mkDb [report_task; bug_row]
                [work_label; work_green;
                 Label.mk "c7" "travel" "#3b82f6" at_2023 at_2023]
                [TaskLabel.mk "c0" "c1"; TaskLabel.mk "c6" "c7"; TaskLabel.mk "c6" "c5"])
          [] 8 at_2023.

(** The same label name twice and no title. *)
Definition work_twice_no_title : Data.t :=
  Data.mk JUndefined JUndefined JUndefined JUndefined JUndefined
    (Some [LabelData.mk (JStr "work") (JStr "#ff0000");
           LabelData.mk (JStr "work") (JStr "#00ff00")]).

(** [sample_db] once the associations of c0 are deleted and the task is not. *)
Definition half_deleted : World :=
  mkWorld (mkDb [report_task; walk_task; cook_task] [work_label] []) [] 4 at_2023.

(** ** The constraints of [schema.prisma], as properties of a database *)

(** The two [@relation]s of [TaskLabel]: every association row points to a
    task row and to a label row. *)
Definition references_exist (d : Db) : Prop :=
  forall tl, In tl (taskLabels d) ->
    (exists t, In t (tasks d) /\ Task.id t = TaskLabel.taskId tl)
    /\ (exists l, In l (labels d) /\ Label.id l = TaskLabel.labelId tl).

(** [@@id([taskId, labelId])] *)
Definition pairs_unique (d : Db) : Prop := NoDup (taskLabels d).

(** [@@unique([name, color])] *)
Definition name_color_unique (d : Db) : Prop :=
  NoDup (map (fun l => (Label.name l, Label.color l)) (labels d)).

Definition consistent (d : Db) : Prop :=
  references_exist d /\ pairs_unique d /\ name_color_unique d.

(** No two label rows carry the same name.  The schema does not ask for
    this; the create handler keeps it. *)
Definition names_distinct (d : Db) : Prop :=
  NoDup (map Label.name (labels d)).

(** A computation keeps a property of the database, however it ends. *)
Definition preserves (P : Db -> Prop) {A} (m : M A) : Prop :=
  forall w, P (db w) -> P (db (snd (m w))).


(** The [where] that [GET] builds from a query string. *)
Definition where_of (request : Request) : TaskWhere :=
  mkTaskWhere
    (some_if_nonempty (searchParams_getAll "label" (searchParams request)))
    (some_if_nonempty (searchParams_getAll "status" (searchParams request)))
    (some_if_nonempty (searchParams_getAll "priority" (searchParams request))).

(** The label entries of a body: [data.labels || []]. *)
Definition labelData_of (data : Data.t) : list LabelData.t :=
  match Data.labels data with
  | Some l => l
  | None => []
  end.

(** Exceptions that come from the engine or from a constraint, as opposed
    to an argument the client refuses. *)
Definition from_storage (e : Exn) : Prop :=
  match e with
  | StorageFailure | UniqueConstraintViolation _ | ForeignKeyViolation _ => True
  | _ => False
  end.

(** * Properties *)

(** ** The monad and the storage engine *)

Ltac unfold_monad :=
  cbv [bind ret throw lift get_db put_db clock fresh_cuid set_db] in *.

Lemma engine_call_cases (w : World) :
  exists fs,
    engine_call w = (Ok tt, mkWorld (db w) fs (cuids w) (now w))
    \/ engine_call w = (Throw StorageFailure, mkWorld (db w) fs (cuids w) (now w)).
Proof.
  unfold engine_call. destruct w as [d fs c n]; simpl.
  destruct fs as [|[|] fs]; eauto.
Qed.

Lemma engine_call_ok (w : World) :
  hd false (faults w) = false ->
  engine_call w = (Ok tt, mkWorld (db w) (tl (faults w)) (cuids w) (now w)).
Proof.
  unfold engine_call. destruct w as [d fs c n]; simpl.
  destruct fs as [|[|] fs]; simpl; intros H; try discriminate; reflexivity.
Qed.

Lemma engine_call_fails (w : World) (fs : list bool) :
  faults w = true :: fs ->
  engine_call w = (Throw StorageFailure, mkWorld (db w) fs (cuids w) (now w)).
Proof.
  unfold engine_call. intros ->. reflexivity.
Qed.

Ltac split_engine_call w :=
  let fs := fresh "fs" in
  let E := fresh "E" in
  destruct (engine_call_cases w) as [fs [E | E]]; rewrite E; simpl.

Section ClientFacts.

Variable cuid : nat -> string.

(** *** [taskLabel.create] *)

Lemma taskLabel_create_db (tid lid : string) (w : World) :
  match taskLabel_create tid lid w with
  | (Ok row, w') =>
      row = TaskLabel.mk tid lid
      /\ db w' = mkDb (tasks (db w)) (labels (db w)) (taskLabels (db w) ++ [row])
  | (Throw _, w') => db w' = db w
  end.
Proof.
  unfold taskLabel_create. unfold_monad.
  split_engine_call w; auto.
  repeat match goal with
         | |- context [if ?b then _ else _] => destruct b
         end; simpl; auto.
Qed.

Lemma taskLabel_create_twice (tid lid : string) (w : World) :
  In (TaskLabel.mk tid lid) (taskLabels (db w)) ->
  exists e w', taskLabel_create tid lid w = (Throw e, w')
               /\ (e = StorageFailure
                   \/ e = UniqueConstraintViolation "TaskLabel_pkey").
Proof.
  intros Hin. unfold taskLabel_create. unfold_monad.
  split_engine_call w; eauto.
  assert (Hdup : existsb (fun tl => (TaskLabel.taskId tl =? tid)
                                    && (TaskLabel.labelId tl =? lid))
                   (taskLabels (db w)) = true).
  { apply existsb_exists. eexists; split; [exact Hin|].
    simpl. now rewrite !String.eqb_refl. }
  rewrite Hdup. eauto.
Qed.

(** *** [label.findFirst] *)

Lemma label_findFirst_db (name : jsval) (w : World) :
  match label_findFirst name w with
  | (Ok found, w') =>
      db w' = db w
      /\ exists f, string_filter "name" name = Ok f
                   /\ found = findFirst_row f (labels (db w))
  | (Throw _, w') => db w' = db w
  end.
Proof.
  unfold label_findFirst. unfold_monad.
  destruct (string_filter "name" name) as [f|e]; auto.
  split_engine_call w; eauto.
Qed.

(** *** [label.create] *)

Lemma label_create_db (name color : jsval) (w : World) :
  match label_create cuid name color w with
  | (Ok row, w') =>
      name = JStr (Label.name row)
      /\ db w' = mkDb (tasks (db w)) (labels (db w) ++ [row]) (taskLabels (db w))
  | (Throw _, w') => db w' = db w
  end.
Proof.
  unfold label_create. unfold_monad.
  destruct name; simpl; auto.
  destruct (defaulted_string "color" default_color color) as [c|e]; auto.
  split_engine_call w; auto.
  destruct (existsb _ _); simpl; auto.
Qed.

(** *** [task.create] *)

Lemma task_create_db (data : TaskCreateInput) (w : World) :
  match task_create cuid data w with
  | (Ok row, w') =>
      db w' = mkDb (tasks (db w) ++ [row]) (labels (db w)) (taskLabels (db w))
  | (Throw _, w') => db w' = db w
  end.
Proof.
  unfold task_create. unfold_monad.
  destruct (required_string "title" (in_title data)); auto.
  destruct (optional_string "description" (in_description data)); auto.
  destruct (defaulted_string "priority" default_priority (in_priority data)); auto.
  destruct (defaulted_string "status" default_status (in_status data)); auto.
  destruct (optional_datetime "dueDate" (in_dueDate data)); auto.
  split_engine_call w; auto.
Qed.

End ClientFacts.

(** ** Lists *)

Lemma find_app_some {A} (p : A -> bool) (l r : list A) (a : A) :
  find p l = Some a -> find p (l ++ r) = Some a.
Proof.
  induction l as [|x l IH]; simpl; [discriminate|].
  destruct (p x); auto.
Qed.

Lemma find_app_none {A} (p : A -> bool) (l r : list A) :
  find p l = None -> find p (l ++ r) = find p r.
Proof.
  induction l as [|x l IH]; simpl; auto.
  destruct (p x); [discriminate|auto].
Qed.

Lemma find_some_iff_exists {A} (p : A -> bool) (l : list A) :
  (exists a, In a l /\ p a = true) -> exists a, find p l = Some a.
Proof.
  intros [a [Hin Hp]].
  destruct (find p l) as [b|] eqn:E; eauto.
  now rewrite (find_none _ _ E a Hin) in Hp.
Qed.

(** ** The row a lookup returns *)

Lemma least_color_In (best : Label.t) (rows : list Label.t) :
  In (least_color best rows) (best :: rows).
Proof.
  revert best. induction rows as [|l rest IH]; intros best; simpl.
  - now left.
  - destruct (IH (if String.ltb (Label.color l) (Label.color best) then l else best))
      as [H|H].
    + destruct (String.ltb (Label.color l) (Label.color best)); auto.
    + auto.
Qed.

Lemma findFirst_row_some (f : option string) (ls : list Label.t) (l : Label.t) :
  findFirst_row f ls = Some l -> In l ls /\ name_matches f l = true.
Proof.
  unfold findFirst_row. destruct f as [n|]; simpl.
  - destruct (filter (fun l0 => Label.name l0 =? n) ls) as [|l0 rest] eqn:E;
      [discriminate|].
    intros H. injection H as <-.
    pose proof (least_color_In l0 rest) as Hin. rewrite <- E in Hin.
    apply filter_In in Hin. exact Hin.
  - destruct ls as [|l0 ls]; [discriminate|]. simpl. intros H. injection H as <-.
    split; [now left|reflexivity].
Qed.

Lemma filter_nil_find_none {A} (p : A -> bool) (ls : list A) :
  filter p ls = [] <-> find p ls = None.
Proof.
  induction ls as [|x ls IH]; simpl; [tauto|].
  destruct (p x); [split; discriminate|exact IH].
Qed.

Lemma findFirst_row_none (n : string) (ls : list Label.t) :
  findFirst_row (Some n) ls = None <-> find (name_matches (Some n)) ls = None.
Proof.
  change (name_matches (Some n)) with (fun l => Label.name l =? n). split; intros H.
  - apply (filter_nil_find_none (fun l => Label.name l =? n)).
    unfold findFirst_row in H.
    destruct (filter (fun l => Label.name l =? n) ls); [reflexivity|discriminate].
  - apply (filter_nil_find_none (fun l => Label.name l =? n)) in H.
    unfold findFirst_row. now rewrite H.
Qed.


(** Appending rows under other names does not change what a lookup returns. *)
Lemma findFirst_row_grows
    (f : option string) (ls created : list Label.t) (l : Label.t) :
  findFirst_row f ls = Some l ->
  (forall c, In c created ->
             find (name_matches (Some (Label.name c))) ls = None) ->
  findFirst_row f (ls ++ created) = Some l.
Proof.
  intros Hfound Hnew. destruct f as [n|].
  - assert (Hnamed : find (name_matches (Some n)) ls <> None).
    { intros E. apply findFirst_row_none in E. congruence. }
    unfold findFirst_row in *. rewrite filter_app.
    assert (Hnone : filter (fun l0 => Label.name l0 =? n) created = []).
    { clear Hfound. induction created as [|c created IH]; simpl; [reflexivity|].
      destruct (Label.name c =? n) eqn:E.
      - apply String.eqb_eq in E. subst n.
        destruct Hnamed. apply Hnew. now left.
      - apply IH. intros c0 Hc0. apply Hnew. now right. }
    rewrite Hnone, app_nil_r. exact Hfound.
  - unfold findFirst_row in *. destruct ls; [discriminate|exact Hfound].
Qed.

Lemma findFirst_row_new (n : string) (ls : list Label.t) (l : Label.t) :
  find (name_matches (Some n)) ls = None ->
  Label.name l = n ->
  findFirst_row (Some n) (ls ++ [l]) = Some l.
Proof.
  intros Hd Hname. unfold findFirst_row. rewrite filter_app.
  apply (filter_nil_find_none (fun l0 => Label.name l0 =? n)) in Hd.
  rewrite Hd. simpl. rewrite Hname, String.eqb_refl. reflexivity.
Qed.

(** ** One round of the label loop *)

Section LabelLoop.

Variable cuid : nat -> string.

Lemma process_label_round (tid : string) (label : LabelData.t) (w : World) :
  match process_label cuid tid label w with
  | (r, w') =>
      tasks (db w') = tasks (db w)
      /\ exists created,
          labels (db w') = labels (db w) ++ created
          /\ (created = []
              \/ exists l,
                  created = [l]
                  /\ LabelData.name label = JStr (Label.name l)
                  /\ find (name_matches (Some (Label.name l))) (labels (db w)) = None)
          /\ match r with
             | Ok _ =>
                 exists f l,
                   string_filter "name" (LabelData.name label) = Ok f
                   /\ findFirst_row f (labels (db w')) = Some l
                   /\ taskLabels (db w')
                      = taskLabels (db w) ++ [TaskLabel.mk tid (Label.id l)]
             | Throw _ => taskLabels (db w') = taskLabels (db w)
             end
  end.
Proof.
  unfold process_label, bind.
  pose proof (label_findFirst_db (LabelData.name label) w) as Hfind.
  destruct (label_findFirst (LabelData.name label) w) as [[found|e] w1].
  2:{ rewrite Hfind. split; [reflexivity|]. exists []. rewrite app_nil_r. auto. }
  destruct Hfind as [Hdb1 [f [Hf Hfound]]].
  destruct found as [l|].
  - (* the lookup found a row *)
    unfold ret at 1.
    pose proof (taskLabel_create_db tid (Label.id l) w1) as Hlink.
    destruct (taskLabel_create tid (Label.id l) w1) as [[row|e] w2].
    + destruct Hlink as [-> Hdb2]. unfold ret. rewrite Hdb2, Hdb1; simpl.
      split; [reflexivity|]. exists []. rewrite app_nil_r.
      repeat split; auto. exists f, l. auto.
    + rewrite Hlink, Hdb1. split; [reflexivity|]. exists []. rewrite app_nil_r. auto.
  - (* no row: create one *)
    pose proof (label_create_db cuid (LabelData.name label)
                  (js_or (LabelData.color label) (JStr default_color)) w1) as Hnew.
    destruct (label_create cuid _ _ w1) as [[newLabel|e] w2].
    2:{ rewrite Hnew, Hdb1. split; [reflexivity|]. exists []. rewrite app_nil_r. auto. }
    destruct Hnew as [Hname Hdb2]. unfold ret at 1.
    assert (Hf' : f = Some (Label.name newLabel)).
    { rewrite Hname in Hf. simpl in Hf. congruence. }
    subst f. symmetry in Hfound. apply findFirst_row_none in Hfound.
    assert (Hcreated : exists l, [newLabel] = [l]
              /\ LabelData.name label = JStr (Label.name l)
              /\ find (name_matches (Some (Label.name l))) (labels (db w)) = None)
      by (exists newLabel; auto).
    pose proof (taskLabel_create_db tid (Label.id newLabel) w2) as Hlink.
    destruct (taskLabel_create tid (Label.id newLabel) w2) as [[row|e] w3].
    + destruct Hlink as [-> Hdb3]. unfold ret. rewrite Hdb3, Hdb2, Hdb1; simpl.
      split; [reflexivity|]. exists [newLabel]. repeat split; auto.
      exists (Some (Label.name newLabel)), newLabel. repeat split; auto.
      now apply findFirst_row_new.
    + rewrite Hlink, Hdb2, Hdb1; simpl.
      split; [reflexivity|]. exists [newLabel]. auto.
Qed.

End LabelLoop.

Lemma engine_call_quiet (w : World) :
  faults w = [] -> engine_call w = (Ok tt, w).
Proof.
  unfold engine_call. intros ->. reflexivity.
Qed.

Lemma existsb_pair_false (tid lid : string) (l : list TaskLabel.t) :
  ~ In (TaskLabel.mk tid lid) l ->
  existsb (fun tl => (TaskLabel.taskId tl =? tid) && (TaskLabel.labelId tl =? lid)) l
  = false.
Proof.
  intros Hnot. destruct (existsb _ l) eqn:E; [|reflexivity].
  apply existsb_exists in E. destruct E as [[t' l'] [Hin Heq]]. simpl in Heq.
  apply andb_true_iff in Heq. destruct Heq as [H1 H2].
  apply String.eqb_eq in H1, H2. subst. contradiction.
Qed.

Section PostFacts.

Variable Date_getTime : jsval -> option Z.
Variable cuid : nat -> string.

Lemma POST_not_json (request : Request) (w : World) :
  json request = None ->
  POST Date_getTime cuid request w
  = (Ok (mkResponse 500 (ErrorJson "Failed to create task")), w).
Proof.
  intros H. unfold POST, try_catch, bind, request_json. rewrite H. reflexivity.
Qed.

Lemma POST_dueDate_guard (request : Request) (data : Data.t) (w : World) :
  json request = Some data ->
  invalid_dueDate Date_getTime data = true ->
  POST Date_getTime cuid request w
  = (Ok (mkResponse 400 (ErrorJson "Invalid due date format")), w).
Proof.
  intros H G. unfold POST, try_catch, bind, request_json.
  rewrite H. unfold ret at 1. rewrite G. reflexivity.
Qed.

Lemma POST_runs_transaction (request : Request) (data : Data.t) (w : World) :
  json request = Some data ->
  invalid_dueDate Date_getTime data = false ->
  POST Date_getTime cuid request w =
  match create_task cuid data (dueDate_of Date_getTime data) w with
  | (Ok task, w') => (Ok (mkResponse 200 (TaskJson task)), w')
  | (Throw _, w') =>
      (Ok (mkResponse 500 (ErrorJson "Failed to create task")), set_db (db w) w')
  end.
Proof.
  intros H G. unfold POST, try_catch, bind, request_json, transaction.
  rewrite H. unfold ret at 1. rewrite G.
  destruct (create_task cuid data (dueDate_of Date_getTime data) w)
    as [[task|e] w']; reflexivity.
Qed.

End PostFacts.

Section CreateClaims.

Variable Date_getTime : jsval -> option Z.
Variable cuid : nat -> string.

(** C3. When the function run inside [prisma.$transaction] throws, at
    whichever step (task insert, label lookup, label insert, association
    insert), the handler answers 500 with the body
    [{error: "Failed to create task"}] and the database holds exactly the
    rows it held before the request. *)
Theorem failed_transaction_persists_nothing
    (request : Request) (data : Data.t) (w w1 : World) (e : Exn) :
  json request = Some data ->
  invalid_dueDate Date_getTime data = false ->
  create_task cuid data (dueDate_of Date_getTime data) w = (Throw e, w1) ->
  exists w',
    POST Date_getTime cuid request w
    = (Ok (mkResponse 500 (ErrorJson "Failed to create task")), w')
    /\ db w' = db w.
Proof.
  intros Hjson Hguard Hfail.
  rewrite (POST_runs_transaction _ _ _ _ _ Hjson Hguard), Hfail.
  eexists. split; reflexivity.
Qed.

(** C6 (amended). When [dueDate] is present and truthy (so not the empty
    string) and does not parse to a date, the handler answers 400 with the
    body [{error: "Invalid due date format"}] and the world is untouched:
    no storage call was made and no row was written. *)
Theorem unparseable_dueDate_rejected
    (request : Request) (data : Data.t) (w : World) :
  json request = Some data ->
  truthy (Data.dueDate data) = true ->
  Date_getTime (Data.dueDate data) = None ->
  POST Date_getTime cuid request w
  = (Ok (mkResponse 400 (ErrorJson "Invalid due date format")), w).
Proof.
  intros Hjson Htruthy Hnan.
  apply (POST_dueDate_guard _ _ _ _ _ Hjson).
  unfold invalid_dueDate, dueDate_of. rewrite Htruthy, Hnan. reflexivity.
Qed.

(** C8. A create request that supplies a title and nothing else, served
    while the engine is up, is answered 200 with the created task, whose
    priority is MEDIUM, status is TODO and dueDate is null; that row is
    appended to the task table and nothing else is written. *)
Theorem title_only_gets_defaults (request : Request) (s : string) (w : World) :
  json request
  = Some (Data.mk (JStr s) JUndefined JUndefined JUndefined JUndefined None) ->
  hd false (faults w) = false ->
  exists row,
    POST Date_getTime cuid request w
    = (Ok (mkResponse 200 (TaskJson row)),
       mkWorld (mkDb (tasks (db w) ++ [row]) (labels (db w)) (taskLabels (db w)))
               (tl (faults w)) (S (cuids w)) (now w))
    /\ Task.title row = s
    /\ Task.priority row = "MEDIUM"
    /\ Task.status row = "TODO"
    /\ Task.dueDate row = None.
Proof.
  intros Hjson Hup.
  exists (Task.mk (cuid (cuids w)) s None "MEDIUM" "TODO" None (now w) (now w)).
  split; [|repeat split].
  rewrite (POST_runs_transaction _ _ _ _ _ Hjson) by reflexivity.
  unfold create_task, task_create. unfold_monad. simpl.
  rewrite (engine_call_ok w Hup). reflexivity.
Qed.

End CreateClaims.

(** ** The whole label loop *)

Section LoopFacts.

Variable cuid : nat -> string.

Lemma process_labels_app (tid : string) (xs ys : list LabelData.t) (w : World) :
  process_labels cuid tid (xs ++ ys) w
  = match process_labels cuid tid xs w with
    | (Ok _, w') => process_labels cuid tid ys w'
    | (Throw e, w') => (Throw e, w')
    end.
Proof.
  revert w. induction xs as [|x xs IH]; intros w; simpl.
  - reflexivity.
  - unfold bind. destruct (process_label cuid tid x w) as [[u|e] w1]; auto.
Qed.

(** A completed round on an entry named [n] leaves the task linked to the
    row that a lookup of [n] returns. *)
Lemma process_label_links
    (tid n : string) (label : LabelData.t) (w w' : World) (u : unit) :
  LabelData.name label = JStr n ->
  process_label cuid tid label w = (Ok u, w') ->
  linked tid n (db w').
Proof.
  intros Hname Hrun.
  pose proof (process_label_round cuid tid label w) as Hround.
  rewrite Hrun in Hround.
  destruct Hround as [_ [created [_ [_ [f [l [Hf [Hfind Hlink]]]]]]]].
  rewrite Hname in Hf. simpl in Hf. injection Hf as <-.
  exists l. split; [exact Hfind|].
  rewrite Hlink. apply in_or_app. right. now left.
Qed.

(** What a lookup returns, it goes on returning: a round only inserts a
    label under a name that no row carries. *)
Lemma process_label_keeps_lookup
    (tid : string) (label : LabelData.t) (w w' : World) (r : Result unit)
    (f : option string) (l : Label.t) :
  findFirst_row f (labels (db w)) = Some l ->
  process_label cuid tid label w = (r, w') ->
  findFirst_row f (labels (db w')) = Some l.
Proof.
  intros Hfind Hrun.
  pose proof (process_label_round cuid tid label w) as Hround.
  rewrite Hrun in Hround.
  destruct Hround as [_ [created [Hlabels [Hcreated _]]]].
  rewrite Hlabels. apply findFirst_row_grows; [exact Hfind|].
  intros c Hc. destruct Hcreated as [->|[l0 [-> [_ Hnone]]]]; [destruct Hc|].
  destruct Hc as [<-|[]]. exact Hnone.
Qed.

Lemma process_labels_keeps_lookup
    (tid : string) (ls : list LabelData.t) (w w' : World) (r : Result unit)
    (f : option string) (l : Label.t) :
  findFirst_row f (labels (db w)) = Some l ->
  process_labels cuid tid ls w = (r, w') ->
  findFirst_row f (labels (db w')) = Some l.
Proof.
  revert w. induction ls as [|x ls IH]; intros w Hfind Hrun; simpl in Hrun.
  - unfold ret in Hrun. now inversion Hrun; subst.
  - unfold bind in Hrun.
    destruct (process_label cuid tid x w) as [[u|e] w1] eqn:E1.
    + eapply IH; [|exact Hrun]. eapply process_label_keeps_lookup; eauto.
    + inversion Hrun; subst. eapply process_label_keeps_lookup; eauto.
Qed.

(** Later rounds do not undo a link: rows are only ever appended. *)
Lemma process_label_keeps_link
    (tid n : string) (label : LabelData.t) (w w' : World) (r : Result unit) :
  linked tid n (db w) ->
  process_label cuid tid label w = (r, w') ->
  linked tid n (db w').
Proof.
  intros [l [Hfind Hin]] Hrun.
  pose proof (process_label_round cuid tid label w) as Hround.
  rewrite Hrun in Hround.
  destruct Hround as [_ [created [Hlabels [_ Hr]]]].
  exists l. split.
  - exact (process_label_keeps_lookup tid label w w' r (Some n) l Hfind Hrun).
  - destruct r as [u|e].
    + destruct Hr as [f [l1 [_ [_ Hlink]]]]. rewrite Hlink.
      apply in_or_app. now left.
    + now rewrite Hr.
Qed.

Lemma process_labels_keeps_link
    (tid n : string) (ls : list LabelData.t) (w w' : World) (r : Result unit) :
  linked tid n (db w) ->
  process_labels cuid tid ls w = (r, w') ->
  linked tid n (db w').
Proof.
  revert w. induction ls as [|x ls IH]; intros w Hlinked Hrun; simpl in Hrun.
  - unfold ret in Hrun. now inversion Hrun; subst.
  - unfold bind in Hrun.
    destruct (process_label cuid tid x w) as [[u|e] w1] eqn:E1.
    + eapply IH; [|exact Hrun]. eapply process_label_keeps_link; eauto.
    + inversion Hrun; subst. eapply process_label_keeps_link; eauto.
Qed.

(** A round on an entry named [n] when the task is already linked to the
    row found for [n]: the association insert hits the composite key. *)
Lemma process_label_again_throws
    (tid n : string) (label : LabelData.t) (w : World) :
  LabelData.name label = JStr n ->
  linked tid n (db w) ->
  exists e w',
    process_label cuid tid label w = (Throw e, w')
    /\ (e = StorageFailure \/ e = UniqueConstraintViolation "TaskLabel_pkey")
    /\ (faults w = [] -> e = UniqueConstraintViolation "TaskLabel_pkey").
Proof.
  intros Hname [l [Hfind Hin]].
  unfold process_label, label_findFirst. rewrite Hname. unfold_monad. simpl.
  destruct (faults w) as [|flag fs] eqn:Efaults.
  - rewrite (engine_call_quiet w Efaults).
    rewrite Hfind.
    unfold taskLabel_create. unfold_monad.
    rewrite (engine_call_quiet w Efaults).
    assert (Hdup : existsb (fun tl => (TaskLabel.taskId tl =? tid)
                                      && (TaskLabel.labelId tl =? Label.id l))
                     (taskLabels (db w)) = true).
    { apply existsb_exists. eexists; split; [exact Hin|].
      simpl. now rewrite !String.eqb_refl. }
    rewrite Hdup. do 2 eexists. split; [reflexivity|]. split; [now right|reflexivity].
  - split_engine_call w.
    2:{ do 2 eexists. split; [reflexivity|]. split; [now left|discriminate]. }
    rewrite Hfind.
    destruct (taskLabel_create_twice tid (Label.id l)
                (mkWorld (db w) fs0 (cuids w) (now w)) Hin)
      as [e [w' [Hrun He]]].
    rewrite Hrun. do 2 eexists. split; [reflexivity|]. split; [exact He|discriminate].
Qed.

(** A label list with the same name at two places makes the loop throw. *)
Lemma process_labels_duplicate_throws
    (tid n : string) (l1 l2 l3 : list LabelData.t) (a b : LabelData.t) (w : World) :
  LabelData.name a = JStr n ->
  LabelData.name b = JStr n ->
  exists e w', process_labels cuid tid (l1 ++ a :: l2 ++ b :: l3) w = (Throw e, w').
Proof.
  intros Ha Hb.
  replace (l1 ++ a :: l2 ++ b :: l3) with ((l1 ++ [a]) ++ l2 ++ b :: l3)
    by (rewrite <- app_assoc; reflexivity).
  rewrite process_labels_app.
  rewrite (process_labels_app tid l1 [a] w).
  destruct (process_labels cuid tid l1 w) as [[u1|e1] w1]; [|eauto].
  simpl. unfold bind at 1.
  destruct (process_label cuid tid a w1) as [[ua|ea] wa] eqn:Ea; [|eauto].
  unfold ret at 1.
  pose proof (process_label_links tid n a w1 wa ua Ha Ea) as Hlinked.
  rewrite process_labels_app.
  destruct (process_labels cuid tid l2 wa) as [[u2|e2] w2] eqn:E2; [|eauto].
  pose proof (process_labels_keeps_link tid n l2 wa w2 _ Hlinked E2) as Hlinked2.
  destruct (process_label_again_throws tid n b w2 Hb Hlinked2) as [e [w' [Hrun _]]].
  simpl. unfold bind. rewrite Hrun. eauto.
Qed.

End LoopFacts.

Section DuplicateNames.

Variable Date_getTime : jsval -> option Z.
Variable cuid : nat -> string.

Lemma create_task_duplicate_throws
    (data : Data.t) (dueDate : option (option Z)) (n : string)
    (l1 l2 l3 : list LabelData.t) (a b : LabelData.t) (w : World) :
  Data.labels data = Some (l1 ++ a :: l2 ++ b :: l3) ->
  LabelData.name a = JStr n ->
  LabelData.name b = JStr n ->
  exists e w', create_task cuid data dueDate w = (Throw e, w').
Proof.
  intros Hlabels Ha Hb. unfold create_task, bind.
  destruct (task_create cuid _ w) as [[createdTask|e] w1]; [|eauto].
  rewrite Hlabels.
  destruct (process_labels_duplicate_throws cuid (Task.id createdTask) n
              l1 l2 l3 a b w1 Ha Hb) as [e [w' Hrun]].
  rewrite Hrun. eauto.
Qed.

(** C9 (amended). A create request that gets past the due-date check and
    whose label list carries the same name at two places is answered 500
    with nothing persisted.  Whenever the loop has completed the rounds
    before the second occurrence, the task is by then linked to the row
    that a lookup of the name returns, so the round for the second
    occurrence resolves to that same row and throws: on the composite key
    of TaskLabel, or on a failure of the engine that comes first. *)
Theorem duplicate_label_name_aborts
    (request : Request) (data : Data.t) (n : string)
    (l1 l2 l3 : list LabelData.t) (a b : LabelData.t) (w : World) :
  json request = Some data ->
  invalid_dueDate Date_getTime data = false ->
  Data.labels data = Some (l1 ++ a :: l2 ++ b :: l3) ->
  LabelData.name a = JStr n ->
  LabelData.name b = JStr n ->
  (exists w',
      POST Date_getTime cuid request w
      = (Ok (mkResponse 500 (ErrorJson "Failed to create task")), w')
      /\ db w' = db w)
  /\ (forall tid w0 w1,
         process_labels cuid tid (l1 ++ a :: l2) w0 = (Ok tt, w1) ->
         linked tid n (db w1)
         /\ exists e w2,
             process_label cuid tid b w1 = (Throw e, w2)
             /\ (e = StorageFailure
                 \/ e = UniqueConstraintViolation "TaskLabel_pkey")
             /\ (faults w1 = [] -> e = UniqueConstraintViolation "TaskLabel_pkey")).
Proof.
  intros Hjson Hguard Hlabels Ha Hb. split.
  - rewrite (POST_runs_transaction _ _ _ _ _ Hjson Hguard).
    destruct (create_task_duplicate_throws data (dueDate_of Date_getTime data) n
                l1 l2 l3 a b w Hlabels Ha Hb) as [e [w1 Hrun]].
    rewrite Hrun. eexists. split; reflexivity.
  - intros tid w0 w1 Hrun.
    assert (Hlinked : linked tid n (db w1)).
    { replace (l1 ++ a :: l2) with ((l1 ++ [a]) ++ l2) in Hrun
        by (rewrite <- app_assoc; reflexivity).
      rewrite process_labels_app in Hrun.
      rewrite (process_labels_app cuid tid l1 [a] w0) in Hrun.
      destruct (process_labels cuid tid l1 w0) as [[u1|e1] wa]; [|discriminate].
      simpl in Hrun. unfold bind at 1 in Hrun.
      destruct (process_label cuid tid a wa) as [[ua|ea] wb] eqn:Ea;
        [|discriminate].
      unfold ret at 1 in Hrun.
      eapply process_labels_keeps_link; [|exact Hrun].
      exact (process_label_links cuid tid n a wa wb ua Ha Ea). }
    split; [exact Hlinked|].
    exact (process_label_again_throws cuid tid n b w1 Hb Hlinked).
Qed.

End DuplicateNames.

(** ** What a create request can do to the database *)

Section PostOutcomes.

Variable Date_getTime : jsval -> option Z.
Variable cuid : nat -> string.

(** The loop only appends label rows, and never one whose name was there. *)
Lemma process_labels_appends
    (tid : string) (ls : list LabelData.t) (w : World) :
  exists created,
    labels (db (snd (process_labels cuid tid ls w))) = labels (db w) ++ created
    /\ forall l, In l created ->
                 find (name_matches (Some (Label.name l))) (labels (db w)) = None.
Proof.
  revert w. induction ls as [|x ls IH]; intros w; simpl.
  - exists []. rewrite app_nil_r. split; [reflexivity|]. intros l [].
  - unfold bind.
    pose proof (process_label_round cuid tid x w) as Hround.
    destruct (process_label cuid tid x w) as [r w1].
    destruct Hround as [_ [c1 [Hl1 [Hc1 _]]]].
    assert (Hfresh1 : forall l, In l c1 ->
               find (name_matches (Some (Label.name l))) (labels (db w)) = None).
    { intros l Hin. destruct Hc1 as [->|[l0 [-> [_ Hnone]]]]; [destruct Hin|].
      destruct Hin as [<-|[]]. exact Hnone. }
    destruct r as [u|e]; simpl.
    + destruct (IH w1) as [c2 [Hl2 Hfresh2]].
      exists (c1 ++ c2). rewrite Hl2, Hl1, app_assoc. split; [reflexivity|].
      intros l Hin. apply in_app_or in Hin. destruct Hin as [Hin|Hin].
      * now apply Hfresh1.
      * specialize (Hfresh2 l Hin). rewrite Hl1 in Hfresh2.
        destruct (find (name_matches (Some (Label.name l))) (labels (db w)))
          as [l0|] eqn:E; [|reflexivity].
        now rewrite (find_app_some _ _ c1 _ E) in Hfresh2.
    + exists c1. auto.
Qed.

(** X4. The handler never throws.  It answers 200, or 400 without having
    touched anything, or 500 with the database as it was; and whatever it
    answers, the label rows that were there are still there, unchanged and
    in place, followed by rows whose names were not there before. *)
Lemma POST_outcomes (request : Request) (w : World) :
  exists response w',
    POST Date_getTime cuid request w = (Ok response, w')
    /\ (status response = 200
        \/ (status response = 400 /\ w' = w)
        \/ (status response = 500 /\ db w' = db w))
    /\ exists created,
        labels (db w') = labels (db w) ++ created
        /\ forall l, In l created ->
                     find (name_matches (Some (Label.name l))) (labels (db w)) = None.
Proof.
  assert (Hsame : forall d : Db, exists created : list Label.t,
             labels d = labels d ++ created
             /\ forall l, In l created ->
                          find (name_matches (Some (Label.name l))) (labels d) = None).
  { intros d. exists []. rewrite app_nil_r. split; [reflexivity|]. intros l []. }
  destruct (json request) as [data|] eqn:Hjson.
  2:{ rewrite (POST_not_json _ _ _ _ Hjson). do 2 eexists.
      split; [reflexivity|]. split; [simpl; auto|apply Hsame]. }
  destruct (invalid_dueDate Date_getTime data) eqn:Hguard.
  { rewrite (POST_dueDate_guard _ _ _ _ _ Hjson Hguard). do 2 eexists.
    split; [reflexivity|]. split; [simpl; auto|apply Hsame]. }
  rewrite (POST_runs_transaction _ _ _ _ _ Hjson Hguard).
  destruct (create_task cuid data (dueDate_of Date_getTime data) w)
    as [[created_task|e] w1] eqn:Hrun.
  - do 2 eexists. split; [reflexivity|]. split; [simpl; auto|].
    revert Hrun. unfold create_task, bind.
    pose proof (task_create_db cuid
                  (mkTaskCreateInput (Data.title data) (Data.description data)
                     (Data.priority data) (Data.status data)
                     (dueDate_of Date_getTime data)) w) as Htask.
    destruct (task_create cuid _ w) as [[row|e] w0]; [|discriminate].
    destruct (process_labels_appends (Task.id row)
                match Data.labels data with Some l => l | None => [] end w0)
      as [created [Hlabels Hfresh]].
    destruct (process_labels cuid (Task.id row) _ w0) as [[u|e] w2];
      [|discriminate].
    unfold ret. intros Heq. injection Heq as _ <-.
    simpl in Hlabels. rewrite Htask in Hlabels, Hfresh. simpl in Hlabels, Hfresh.
    exists created. auto.
  - do 2 eexists. split; [reflexivity|]. split; [simpl; auto|]. simpl. apply Hsame.
Qed.

(** X17. No schema stands between the body and the insert: any strings given as
    title, priority and status are stored as they are. *)
Lemma POST_stores_given_strings
    (request : Request) (title priority status : string) (w : World) :
  json request
  = Some (Data.mk (JStr title) JUndefined (JStr priority) (JStr status) JUndefined None) ->
  hd false (faults w) = false ->
  POST Date_getTime cuid request w
  = (let row := Task.mk (cuid (cuids w)) title None priority status None (now w) (now w) in
     (Ok (mkResponse 200 (TaskJson row)),
      mkWorld (mkDb (tasks (db w) ++ [row]) (labels (db w)) (taskLabels (db w)))
              (tl (faults w)) (S (cuids w)) (now w))).
Proof.
  intros Hjson Hup.
  rewrite (POST_runs_transaction _ _ _ _ _ Hjson) by reflexivity.
  unfold create_task, task_create. unfold_monad. simpl.
  rewrite (engine_call_ok w Hup). reflexivity.
Qed.

End PostOutcomes.

(** ** Filtering and ordering *)

Lemma mem_In (s : string) (l : list string) : mem s l = true <-> In s l.
Proof.
  unfold mem. rewrite existsb_exists. split.
  - intros [x [Hin Heq]]. apply String.eqb_eq in Heq. now subst.
  - intros Hin. exists s. split; [exact Hin|apply String.eqb_refl].
Qed.

Lemma insert_by_dueDate_In (t u : Task.t) (l : list Task.t) :
  In u (insert_by_dueDate t l) <-> u = t \/ In u l.
Proof.
  induction l as [|x l IH]; simpl.
  - intuition auto.
  - destruct (dueDate_le t x); simpl; [intuition auto|].
    rewrite IH. intuition auto.
Qed.

Lemma order_by_dueDate_In (u : Task.t) (l : list Task.t) :
  In u (order_by_dueDate l) <-> In u l.
Proof.
  induction l as [|x l IH]; simpl.
  - reflexivity.
  - rewrite insert_by_dueDate_In, IH. intuition auto.
Qed.

Lemma insert_by_labelId_In (tl u : TaskLabel.t) (l : list TaskLabel.t) :
  In u (insert_by_labelId tl l) <-> u = tl \/ In u l.
Proof.
  induction l as [|x l IH]; simpl.
  - intuition auto.
  - destruct (String.leb (TaskLabel.labelId tl) (TaskLabel.labelId x)); simpl;
      [intuition auto|].
    rewrite IH. intuition auto.
Qed.

Lemma order_by_labelId_In (u : TaskLabel.t) (l : list TaskLabel.t) :
  In u (order_by_labelId l) <-> In u l.
Proof.
  induction l as [|x l IH]; simpl.
  - reflexivity.
  - rewrite insert_by_labelId_In, IH. intuition auto.
Qed.

Lemma labels_of_In (d : Db) (tid : string) (tl : TaskLabel.t) (l : Label.t) :
  In (tl, l) (labels_of d tid)
  <-> In tl (taskLabels d) /\ TaskLabel.taskId tl = tid
      /\ In l (labels d) /\ Label.id l = TaskLabel.labelId tl.
Proof.
  unfold labels_of. rewrite in_flat_map. split.
  - intros [tl' [Hin Hpair]].
    rewrite order_by_labelId_In in Hin. apply filter_In in Hin.
    destruct Hin as [Hin E]. apply String.eqb_eq in E.
    apply in_map_iff in Hpair. destruct Hpair as [l' [Heq Hl']].
    injection Heq as <- <-.
    apply filter_In in Hl'. destruct Hl' as [Hl' Hid].
    apply String.eqb_eq in Hid. auto.
  - intros [Hin [Htid [Hl Hid]]]. exists tl. split.
    + rewrite order_by_labelId_In. apply filter_In. split; [exact Hin|].
      now apply String.eqb_eq.
    + apply in_map. apply filter_In. split; [exact Hl|].
      now apply String.eqb_eq.
Qed.

Lemma label_filter_holds (d : Db) (t : Task.t) (names : list string) :
  existsb (fun p => mem (Label.name (snd p)) names) (labels_of d (Task.id t)) = true
  <-> has_label_among d t names.
Proof.
  rewrite existsb_exists. unfold has_label_among. split.
  - intros [[tl l] [Hin Hmem]]. simpl in Hmem.
    apply labels_of_In in Hin. apply mem_In in Hmem.
    exists tl, l. tauto.
  - intros [tl [l [H1 [H2 [H3 [H4 H5]]]]]]. exists (tl, l). split.
    + apply labels_of_In. auto.
    + simpl. now apply mem_In.
Qed.

Lemma opt_holds_some_if_nonempty (l : list string) (p : list string -> bool) :
  opt_holds (some_if_nonempty l) p = true <-> l = [] \/ p l = true.
Proof.
  destruct l as [|x l]; simpl.
  - intuition auto.
  - split; [auto|]. intros [H|H]; [discriminate|exact H].
Qed.

Lemma task_matches_holds (d : Db) (t : Task.t) (names statuses priorities : list string) :
  task_matches d
    (mkTaskWhere (some_if_nonempty names) (some_if_nonempty statuses)
       (some_if_nonempty priorities)) t = true
  <-> (names = [] \/ has_label_among d t names)
      /\ (statuses = [] \/ In (Task.status t) statuses)
      /\ (priorities = [] \/ In (Task.priority t) priorities).
Proof.
  unfold task_matches; simpl.
  rewrite !andb_true_iff, !opt_holds_some_if_nonempty.
  rewrite label_filter_holds, !mem_In. tauto.
Qed.

Lemma has_keys_false (names statuses priorities : list string) :
  has_keys (mkTaskWhere (some_if_nonempty names) (some_if_nonempty statuses)
              (some_if_nonempty priorities)) = false ->
  names = [] /\ statuses = [] /\ priorities = [].
Proof.
  destruct names, statuses, priorities; simpl; intros H; try discriminate; auto.
Qed.

(** C4. A list request served while the engine is up is answered 200, writes
    nothing, and returns a task exactly when the task is stored and passes
    every filter category that was given: some associated label carries one
    of the given names, the status is one of the given statuses, the
    priority is one of the given priorities.  With no filter at all every
    stored task is returned. *)
Theorem list_returns_filtered_tasks (request : Request) (w : World) :
  hd false (faults w) = false ->
  exists listed w',
    GET request w = (Ok (mkResponse 200 (TasksJson listed)), w')
    /\ db w' = db w
    /\ (forall t,
           In t (map task listed)
           <-> In t (tasks (db w))
               /\ (searchParams_getAll "label" (searchParams request) = []
                   \/ has_label_among (db w) t
                        (searchParams_getAll "label" (searchParams request)))
               /\ (searchParams_getAll "status" (searchParams request) = []
                   \/ In (Task.status t)
                        (searchParams_getAll "status" (searchParams request)))
               /\ (searchParams_getAll "priority" (searchParams request) = []
                   \/ In (Task.priority t)
                        (searchParams_getAll "priority" (searchParams request))))
    /\ (searchParams_getAll "label" (searchParams request) = [] ->
        searchParams_getAll "status" (searchParams request) = [] ->
        searchParams_getAll "priority" (searchParams request) = [] ->
        forall t, In t (tasks (db w)) -> In t (map task listed)).
Proof.
  intros Hup.
  set (names := searchParams_getAll "label" (searchParams request)).
  set (statuses := searchParams_getAll "status" (searchParams request)).
  set (priorities := searchParams_getAll "priority" (searchParams request)).
  set (wh := mkTaskWhere (some_if_nonempty names) (some_if_nonempty statuses)
               (some_if_nonempty priorities)).
  set (selected := match (if has_keys wh then Some wh else None) with
                   | None => tasks (db w)
                   | Some c => filter (task_matches (db w) c) (tasks (db w))
                   end).
  exists (map (fun t => mkTaskWithLabels t (labels_of (db w) (Task.id t)))
            (order_by_dueDate selected)).
  exists (mkWorld (db w) (tl (faults w)) (cuids w) (now w)).
  assert (Hlisted : forall t,
             In t (map task (map (fun t => mkTaskWithLabels t (labels_of (db w) (Task.id t)))
                               (order_by_dueDate selected)))
             <-> In t selected).
  { intros t. rewrite map_map. simpl. rewrite map_id. apply order_by_dueDate_In. }
  assert (Hselected : forall t,
             In t selected
             <-> In t (tasks (db w))
                 /\ (names = [] \/ has_label_among (db w) t names)
                 /\ (statuses = [] \/ In (Task.status t) statuses)
                 /\ (priorities = [] \/ In (Task.priority t) priorities)).
  { intros t. unfold selected. destruct (has_keys wh) eqn:Ekeys.
    - rewrite filter_In. unfold wh. rewrite task_matches_holds. reflexivity.
    - apply has_keys_false in Ekeys. destruct Ekeys as [-> [-> ->]]. tauto. }
  split; [|split; [reflexivity|split]].
  - unfold GET, try_catch, task_findMany. unfold_monad.
    rewrite (engine_call_ok w Hup). reflexivity.
  - intros t. rewrite Hlisted. apply Hselected.
  - intros H1 H2 H3 t Hin. rewrite Hlisted, Hselected. auto.
Qed.

(** ** Deleting *)

Lemma existsb_filter_negb {A} (p : A -> bool) (l : list A) :
  existsb p (filter (fun a => negb (p a)) l) = false.
Proof.
  induction l as [|x l IH]; simpl; [reflexivity|].
  destruct (p x) eqn:E; simpl; [exact IH|]. now rewrite E.
Qed.

Lemma missing_false (id : string) : id <> "" -> missing (Some id) = false.
Proof.
  intros H. simpl. now apply String.eqb_neq.
Qed.

(** C10. A delete request with no [id] parameter, or with an empty one, is
    answered 400 with the body [{error: "Task ID is required"}], and the
    world is untouched: no storage call was made and no row was changed. *)
Theorem delete_requires_id (request : Request) (w : World) :
  searchParams_get "id" (searchParams request) = None
  \/ searchParams_get "id" (searchParams request) = Some "" ->
  DELETE request w = (Ok (mkResponse 400 (ErrorJson "Task ID is required")), w).
Proof.
  intros [H|H]; unfold DELETE, try_catch; rewrite H; reflexivity.
Qed.

(** C5. Deleting runs two storage calls in a row, outside any transaction:
    the associations of the task first, the task row second.  When neither
    call fails, both the associations and the row are gone and the row is
    returned.  When the first call goes through and the second one fails,
    the answer is 500 and the database is left with the associations of the
    task removed and the task table as it was.  When the first call fails,
    nothing is removed. *)
Theorem delete_is_not_atomic (request : Request) (id : string) (w : World) :
  searchParams_get "id" (searchParams request) = Some id ->
  id <> "" ->
  (forall row,
      hd false (faults w) = false ->
      hd false (tl (faults w)) = false ->
      find (fun t => Task.id t =? id) (tasks (db w)) = Some row ->
      exists w',
        DELETE request w
        = (Ok (mkResponse 200 (DeletedJson true "Task deleted successfully" row)), w')
        /\ db w' = mkDb (filter (fun t => negb (Task.id t =? id)) (tasks (db w)))
                        (labels (db w))
                        (filter (fun tl => negb (TaskLabel.taskId tl =? id))
                                (taskLabels (db w))))
  /\ (forall fs,
         faults w = false :: true :: fs ->
         exists w',
           DELETE request w
           = (Ok (mkResponse 500 (ErrorDetailsJson "Failed to delete task" StorageFailure)),
              w')
           /\ db w' = mkDb (tasks (db w)) (labels (db w))
                           (filter (fun tl => negb (TaskLabel.taskId tl =? id))
                                   (taskLabels (db w))))
  /\ (forall fs,
         faults w = true :: fs ->
         exists w',
           DELETE request w
           = (Ok (mkResponse 500 (ErrorDetailsJson "Failed to delete task" StorageFailure)),
              w')
           /\ db w' = db w).
Proof.
  intros Hid Hne. pose proof (missing_false id Hne) as Hmiss.
  split; [|split].
  - intros row Hup1 Hup2 Hrow.
    unfold DELETE, try_catch, taskLabel_deleteMany, task_delete. rewrite Hid, Hmiss.
    unfold_monad. rewrite (engine_call_ok w Hup1). simpl.
    rewrite engine_call_ok by exact Hup2. simpl.
    rewrite Hrow.
    rewrite (existsb_filter_negb (fun tl => TaskLabel.taskId tl =? id)).
    eexists. split; reflexivity.
  - intros fs Hfaults.
    unfold DELETE, try_catch, taskLabel_deleteMany, task_delete. rewrite Hid, Hmiss.
    unfold_monad. unfold engine_call at 1. rewrite Hfaults. simpl.
    eexists. split; reflexivity.
  - intros fs Hfaults.
    unfold DELETE, try_catch, taskLabel_deleteMany. rewrite Hid, Hmiss.
    unfold_monad. rewrite (engine_call_fails w fs Hfaults).
    eexists. split; reflexivity.
Qed.


(** * The handlers on the sample requests *)

(** C2. [CreateTaskSchema] refuses the priority "URGENT", but [POST] never
    runs the schema: the request is answered 200 and the row is stored with
    that priority. *)
Theorem urgent_priority_is_persisted :
  CreateTaskSchema example_Date_getTime urgent = false
  /\ run_POST (post urgent) fresh_world
     = (Ok (mkResponse 200 (TaskJson urgent_row)),
        mkWorld (mkDb [urgent_row] [] []) [] 1 at_2023)
  /\ Task.priority urgent_row = "URGENT".
Proof.
  repeat split.
Qed.

(** C7. [CreateTaskSchema] refuses an empty title and a title of 101
    characters, but [POST] never runs the schema: both requests are answered
    200 and their rows are stored.  Only a missing title is refused, by the
    storage client, as a 500. *)
Theorem empty_and_long_titles_are_persisted :
  (CreateTaskSchema example_Date_getTime empty_title = false
   /\ run_POST (post empty_title) fresh_world
      = (Ok (mkResponse 200 (TaskJson untitled_row)),
         mkWorld (mkDb [untitled_row] [] []) [] 1 at_2023))
  /\ (CreateTaskSchema example_Date_getTime long_title = false
      /\ String.length (Task.title long_row) = 101
      /\ run_POST (post long_title) fresh_world
         = (Ok (mkResponse 200 (TaskJson long_row)),
            mkWorld (mkDb [long_row] [] []) [] 1 at_2023))
  /\ run_POST (post no_title) fresh_world
     = (Ok (mkResponse 500 (ErrorJson "Failed to create task")), fresh_world).
Proof.
  repeat split.
Qed.

(** Against C6 as stated: a [dueDate] that is present and does not parse,
    the empty string, is not refused; the task is stored without a due date. *)
Lemma empty_dueDate_is_accepted :
  Data.dueDate empty_dueDate = JStr ""
  /\ example_Date_getTime (Data.dueDate empty_dueDate) = None
  /\ run_POST (post empty_dueDate) fresh_world
     = (Ok (mkResponse 200 (TaskJson milk_row)),
        mkWorld (mkDb [milk_row] [] []) [] 1 at_2023).
Proof.
  repeat split.
Qed.

(** Against C9 as stated: a request with the same label name twice and a
    [dueDate] that does not parse is answered 400, not 500; and one with no
    title is stopped at the task insert, before any round of the loop, by
    the client's refusal of the missing title and not by the composite key. *)
Lemma duplicate_names_without_key_violation :
  (Data.labels work_twice_not_a_date
   = Some [LabelData.mk (JStr "work") (JStr "#ff0000");
           LabelData.mk (JStr "work") (JStr "#00ff00")]
   /\ run_POST (post work_twice_not_a_date) fresh_world
      = (Ok (mkResponse 400 (ErrorJson "Invalid due date format")), fresh_world))
  /\ (Data.labels work_twice_no_title
      = Some [LabelData.mk (JStr "work") (JStr "#ff0000");
              LabelData.mk (JStr "work") (JStr "#00ff00")]
      /\ invalid_dueDate example_Date_getTime work_twice_no_title = false
      /\ create_task example_cuid work_twice_no_title
           (dueDate_of example_Date_getTime work_twice_no_title) fresh_world
         = (Throw (PrismaClientValidationError "title"), fresh_world)).
Proof.
  repeat split.
Qed.

(** ** The general statements at sample inputs *)

(** The label insert, third storage call of the transaction, fails. *)
Lemma failed_transaction_persists_nothing_witness :
  json (post with_new_label) = Some with_new_label
  /\ invalid_dueDate example_Date_getTime with_new_label = false
  /\ create_task example_cuid with_new_label
       (dueDate_of example_Date_getTime with_new_label) third_call_fails
     = (Throw StorageFailure, before_rollback)
  /\ exists w',
      POST example_Date_getTime example_cuid (post with_new_label) third_call_fails
      = (Ok (mkResponse 500 (ErrorJson "Failed to create task")), w')
      /\ db w' = db third_call_fails.
Proof.
  split; [reflexivity|]. split; [reflexivity|]. split; [reflexivity|].
  apply (failed_transaction_persists_nothing example_Date_getTime example_cuid
           (post with_new_label) with_new_label third_call_fails before_rollback
           StorageFailure); reflexivity.
Defined.

Lemma unparseable_dueDate_rejected_witness :
  json (post not_a_date) = Some not_a_date
  /\ truthy (Data.dueDate not_a_date) = true
  /\ example_Date_getTime (Data.dueDate not_a_date) = None
  /\ POST example_Date_getTime example_cuid (post not_a_date) sample_world
     = (Ok (mkResponse 400 (ErrorJson "Invalid due date format")), sample_world).
Proof.
  split; [reflexivity|]. split; [reflexivity|]. split; [reflexivity|].
  apply (unparseable_dueDate_rejected example_Date_getTime example_cuid
           (post not_a_date) not_a_date sample_world); reflexivity.
Defined.

Lemma title_only_gets_defaults_witness :
  json (post title_only) = Some title_only
  /\ hd false (faults fresh_world) = false
  /\ exists row,
      POST example_Date_getTime example_cuid (post title_only) fresh_world
      = (Ok (mkResponse 200 (TaskJson row)),
         mkWorld (mkDb (tasks (db fresh_world) ++ [row]) (labels (db fresh_world))
                       (taskLabels (db fresh_world)))
                 (tl (faults fresh_world)) (S (cuids fresh_world)) (now fresh_world))
      /\ Task.title row = "Buy milk"
      /\ Task.priority row = "MEDIUM"
      /\ Task.status row = "TODO"
      /\ Task.dueDate row = None.
Proof.
  split; [reflexivity|]. split; [reflexivity|].
  apply (title_only_gets_defaults example_Date_getTime example_cuid
           (post title_only) "Buy milk" fresh_world); reflexivity.
Defined.

(** "work" twice, in red and in green. *)
Lemma duplicate_label_name_aborts_witness :
  json (post work_twice) = Some work_twice
  /\ invalid_dueDate example_Date_getTime work_twice = false
  /\ (exists w',
         POST example_Date_getTime example_cuid (post work_twice) sample_world
         = (Ok (mkResponse 500 (ErrorJson "Failed to create task")), w')
         /\ db w' = db sample_world)
  /\ (forall tid w0 w1,
         process_labels example_cuid tid
           ([] ++ LabelData.mk (JStr "work") (JStr "#ff0000") :: []) w0 = (Ok tt, w1) ->
         linked tid "work" (db w1)
         /\ exists e w2,
             process_label example_cuid tid
               (LabelData.mk (JStr "work") (JStr "#00ff00")) w1 = (Throw e, w2)
             /\ (e = StorageFailure
                 \/ e = UniqueConstraintViolation "TaskLabel_pkey")
             /\ (faults w1 = [] -> e = UniqueConstraintViolation "TaskLabel_pkey")).
Proof.
  split; [reflexivity|]. split; [reflexivity|].
  apply (duplicate_label_name_aborts example_Date_getTime example_cuid
           (post work_twice) work_twice "work" [] [] []
           (LabelData.mk (JStr "work") (JStr "#ff0000"))
           (LabelData.mk (JStr "work") (JStr "#00ff00")) sample_world);
    reflexivity.
Defined.

Lemma list_returns_filtered_tasks_witness :
  hd false (faults sample_world) = false
  /\ exists listed w',
      GET done_or_todo_and_high sample_world
      = (Ok (mkResponse 200 (TasksJson listed)), w')
      /\ db w' = db sample_world
      /\ (forall t,
             In t (map task listed)
             <-> In t (tasks (db sample_world))
                 /\ (searchParams_getAll "label" (searchParams done_or_todo_and_high) = []
                     \/ has_label_among (db sample_world) t
                          (searchParams_getAll "label" (searchParams done_or_todo_and_high)))
                 /\ (searchParams_getAll "status" (searchParams done_or_todo_and_high) = []
                     \/ In (Task.status t)
                          (searchParams_getAll "status" (searchParams done_or_todo_and_high)))
                 /\ (searchParams_getAll "priority" (searchParams done_or_todo_and_high) = []
                     \/ In (Task.priority t)
                          (searchParams_getAll "priority"
                             (searchParams done_or_todo_and_high))))
      /\ (searchParams_getAll "label" (searchParams done_or_todo_and_high) = [] ->
          searchParams_getAll "status" (searchParams done_or_todo_and_high) = [] ->
          searchParams_getAll "priority" (searchParams done_or_todo_and_high) = [] ->
          forall t, In t (tasks (db sample_world)) -> In t (map task listed)).
Proof.
  split; [reflexivity|].
  apply (list_returns_filtered_tasks done_or_todo_and_high sample_world).
  reflexivity.
Defined.

(** The task c0 has one association; the engine fails the second call. *)
Lemma delete_is_not_atomic_witness :
  searchParams_get "id" (searchParams delete_report) = Some "c0"
  /\ "c0" <> ""
  /\ (exists w',
         DELETE delete_report sample_world
         = (Ok (mkResponse 200
                  (DeletedJson true "Task deleted successfully" report_task)), w')
         /\ db w' = mkDb [walk_task; cook_task] [work_label] [])
  /\ (exists w',
         DELETE delete_report second_call_fails
         = (Ok (mkResponse 500 (ErrorDetailsJson "Failed to delete task" StorageFailure)),
            w')
         /\ db w' = mkDb [report_task; walk_task; cook_task] [work_label] []).
Proof.
  assert (Hne : "c0" <> "") by discriminate.
  split; [reflexivity|]. split; [exact Hne|]. split.
  - exact (proj1 (delete_is_not_atomic delete_report "c0" sample_world eq_refl Hne)
             report_task eq_refl eq_refl eq_refl).
  - exact (proj1 (proj2 (delete_is_not_atomic delete_report "c0" second_call_fails
                           eq_refl Hne))
             [] eq_refl).
Defined.

Lemma delete_requires_id_witness :
  searchParams_get "id" (searchParams delete_nothing) = Some ""
  /\ DELETE delete_nothing sample_world
     = (Ok (mkResponse 400 (ErrorJson "Task ID is required")), sample_world).
Proof.
  split; [reflexivity|].
  apply (delete_requires_id delete_nothing sample_world). right. reflexivity.
Defined.

(** * Further properties of the handlers *)

(** ** The storage calls, step by step *)

Ltac split_if :=
  match goal with
  | |- context [if ?b then _ else _] => let E := fresh "E" in destruct b eqn:E
  end.

Section ClientSteps.

Variable cuid : nat -> string.

Lemma task_create_ok (data : TaskCreateInput) (w w' : World) (row : Task.t) :
  task_create cuid data w = (Ok row, w') ->
  in_title data = JStr (Task.title row)
  /\ optional_string "description" (in_description data) = Ok (Task.description row)
  /\ defaulted_string "priority" default_priority (in_priority data)
     = Ok (Task.priority row)
  /\ defaulted_string "status" default_status (in_status data) = Ok (Task.status row)
  /\ optional_datetime "dueDate" (in_dueDate data) = Ok (Task.dueDate row)
  /\ Task.id row = cuid (cuids w)
  /\ Task.createdAt row = now w
  /\ db w' = mkDb (tasks (db w) ++ [row]) (labels (db w)) (taskLabels (db w)).
Proof.
  unfold task_create. unfold_monad.
  destruct (in_title data) as [| |?|?|title]; simpl; try discriminate.
  destruct (optional_string "description" (in_description data)); [|discriminate].
  destruct (defaulted_string "priority" default_priority (in_priority data));
    [|discriminate].
  destruct (defaulted_string "status" default_status (in_status data)); [|discriminate].
  destruct (optional_datetime "dueDate" (in_dueDate data)); [|discriminate].
  split_engine_call w; [|discriminate].
  intros H. injection H as <- <-. simpl. repeat split.
Qed.

Lemma task_create_throws (data : TaskCreateInput) (w w' : World) (e : Exn) :
  task_create cuid data w = (Throw e, w') ->
  db w' = db w
  /\ (e = StorageFailure
      \/ exists field, e = PrismaClientValidationError field
                       /\ (required_string "title" (in_title data) = Throw e
                           \/ optional_string "description" (in_description data) = Throw e
                           \/ defaulted_string "priority" default_priority (in_priority data)
                              = Throw e
                           \/ defaulted_string "status" default_status (in_status data)
                              = Throw e
                           \/ optional_datetime "dueDate" (in_dueDate data) = Throw e)).
Proof.
  unfold task_create. unfold_monad.
  destruct (required_string "title" (in_title data)) eqn:E1.
  2:{ intros H. injection H as <- <-. split; [reflexivity|]. right.
      destruct (in_title data); simpl in E1; try discriminate;
        injection E1 as <-; eauto. }
  destruct (optional_string "description" (in_description data)) eqn:E2.
  2:{ intros H. injection H as <- <-. split; [reflexivity|]. right.
      destruct (in_description data); simpl in E2; try discriminate;
        injection E2 as <-; eauto 6. }
  destruct (defaulted_string "priority" default_priority (in_priority data)) eqn:E3.
  2:{ intros H. injection H as <- <-. split; [reflexivity|]. right.
      destruct (in_priority data); simpl in E3; try discriminate;
        injection E3 as <-; eauto 7. }
  destruct (defaulted_string "status" default_status (in_status data)) eqn:E4.
  2:{ intros H. injection H as <- <-. split; [reflexivity|]. right.
      destruct (in_status data); simpl in E4; try discriminate;
        injection E4 as <-; eauto 8. }
  destruct (optional_datetime "dueDate" (in_dueDate data)) eqn:E5.
  2:{ intros H. injection H as <- <-. split; [reflexivity|]. right.
      assert (Hshape : exists field, e0 = PrismaClientValidationError field).
      { pose proof E5 as E5'. unfold optional_datetime in E5'.
        destruct (in_dueDate data) as [[t|]|]; [destruct (storable_time t)| |];
          try discriminate; injection E5' as <-; eauto. }
      destruct Hshape as [field ->]. eauto 9. }
  split_engine_call w; [discriminate|].
  intros H. injection H as <- <-. auto.
Qed.

Lemma taskLabel_create_ok (tid lid : string) (w w' : World) (row : TaskLabel.t) :
  taskLabel_create tid lid w = (Ok row, w') ->
  row = TaskLabel.mk tid lid
  /\ ~ In row (taskLabels (db w))
  /\ (exists t, In t (tasks (db w)) /\ Task.id t = tid)
  /\ (exists l, In l (labels (db w)) /\ Label.id l = lid)
  /\ db w' = mkDb (tasks (db w)) (labels (db w)) (taskLabels (db w) ++ [row]).
Proof.
  unfold taskLabel_create. unfold_monad.
  split_engine_call w; [|discriminate].
  split_if; [discriminate|]. split_if; [discriminate|]. split_if; [discriminate|].
  intros H. injection H as <- <-. simpl.
  split; [reflexivity|]. split.
  - intros Hin.
    assert (Hdup : existsb (fun tl => (TaskLabel.taskId tl =? tid)
                                      && (TaskLabel.labelId tl =? lid))
                     (taskLabels (db w)) = true).
    { apply existsb_exists. eexists; split; [exact Hin|].
      simpl. now rewrite !String.eqb_refl. }
    congruence.
  - apply negb_false_iff in E1, E2. apply existsb_exists in E1, E2.
    destruct E1 as [t [Ht Hid]], E2 as [l [Hl Hlid]].
    apply String.eqb_eq in Hid, Hlid.
    split; [eauto|]. split; [eauto|reflexivity].
Qed.

Lemma taskLabel_create_throws (tid lid : string) (w w' : World) (e : Exn) :
  taskLabel_create tid lid w = (Throw e, w') -> db w' = db w /\ from_storage e.
Proof.
  unfold taskLabel_create. unfold_monad.
  split_engine_call w.
  - repeat split_if; intros H; try discriminate; injection H as <- <-; simpl; auto.
  - intros H. injection H as <- <-. simpl. auto.
Qed.

Lemma label_create_ok (name color : jsval) (w w' : World) (row : Label.t) :
  label_create cuid name color w = (Ok row, w') ->
  name = JStr (Label.name row)
  /\ defaulted_string "color" default_color color = Ok (Label.color row)
  /\ ~ In (Label.name row, Label.color row)
          (map (fun l => (Label.name l, Label.color l)) (labels (db w)))
  /\ Label.id row = cuid (cuids w)
  /\ Label.createdAt row = now w
  /\ db w' = mkDb (tasks (db w)) (labels (db w) ++ [row]) (taskLabels (db w)).
Proof.
  unfold label_create. unfold_monad.
  destruct name as [| |?|?|n]; simpl; try discriminate.
  destruct (defaulted_string "color" default_color color) as [c|]; [|discriminate].
  split_engine_call w; [|discriminate].
  split_if; [discriminate|].
  intros H. injection H as <- <-. simpl. repeat split.
  intros Hin. apply in_map_iff in Hin. destruct Hin as [l [Heq Hl]].
  injection Heq as Hn Hc.
  assert (Hdup : existsb (fun l0 => (Label.name l0 =? n) && (Label.color l0 =? c))
                   (labels (db w)) = true).
  { apply existsb_exists. exists l. split; [exact Hl|].
    rewrite Hn, Hc, !String.eqb_refl. reflexivity. }
  congruence.
Qed.

Lemma label_create_throws (n : string) (color : jsval) (w w' : World) (e : Exn) :
  label_create cuid (JStr n) color w = (Throw e, w') ->
  db w' = db w
  /\ (from_storage e \/ defaulted_string "color" default_color color = Throw e).
Proof.
  unfold label_create. unfold_monad. simpl.
  destruct (defaulted_string "color" default_color color) as [c|e0].
  2:{ intros H. injection H as <- <-. auto. }
  split_engine_call w.
  - split_if; intros H; [|discriminate]. injection H as <- <-. simpl. auto.
  - intros H. injection H as <- <-. simpl. auto.
Qed.

Lemma label_findFirst_throws (n : string) (w w' : World) (e : Exn) :
  label_findFirst (JStr n) w = (Throw e, w') -> db w' = db w /\ e = StorageFailure.
Proof.
  unfold label_findFirst. unfold_monad. simpl.
  split_engine_call w; [discriminate|].
  intros H. injection H as <- <-. auto.
Qed.

Lemma taskLabel_deleteMany_db (tid : string) (w : World) :
  match taskLabel_deleteMany tid w with
  | (Ok _, w') =>
      db w' = mkDb (tasks (db w)) (labels (db w))
                   (filter (fun tl => negb (TaskLabel.taskId tl =? tid))
                           (taskLabels (db w)))
      /\ hd false (faults w) = false
      /\ faults w' = tl (faults w)
  | (Throw e, w') =>
      db w' = db w /\ e = StorageFailure /\ hd false (faults w) = true
  end.
Proof.
  unfold taskLabel_deleteMany, engine_call. unfold_monad.
  destruct w as [d fs c n]; simpl. destruct fs as [|[|] fs]; simpl; auto.
Qed.

Lemma task_delete_db (id : string) (w : World) :
  match task_delete id w with
  | (Ok row, w') =>
      find (fun t => Task.id t =? id) (tasks (db w)) = Some row
      /\ (forall tl, In tl (taskLabels (db w)) -> TaskLabel.taskId tl <> id)
      /\ db w' = mkDb (filter (fun t => negb (Task.id t =? id)) (tasks (db w)))
                      (labels (db w)) (taskLabels (db w))
  | (Throw e, w') =>
      db w' = db w
      /\ (e = StorageFailure
          \/ (e = RecordNotFound
              /\ find (fun t => Task.id t =? id) (tasks (db w)) = None)
          \/ (e = ForeignKeyViolation "TaskLabel_taskId_fkey"
              /\ exists tl, In tl (taskLabels (db w)) /\ TaskLabel.taskId tl = id))
  end.
Proof.
  unfold task_delete. unfold_monad.
  split_engine_call w; [|auto].
  destruct (find (fun t => Task.id t =? id) (tasks (db w))) as [row|] eqn:Efind;
    simpl; [|auto].
  split_if; simpl.
  - split; [reflexivity|]. right. right. split; [reflexivity|].
    apply existsb_exists in E0. destruct E0 as [tl [Hin Heq]].
    apply String.eqb_eq in Heq. eauto.
  - split; [reflexivity|]. split; [|reflexivity].
    intros tl Hin Heq.
    assert (existsb (fun tl0 => TaskLabel.taskId tl0 =? id) (taskLabels (db w)) = true).
    { apply existsb_exists. exists tl. split; [exact Hin|]. now apply String.eqb_eq. }
    congruence.
Qed.

End ClientSteps.

(** ** Properties kept by a computation *)

Lemma preserves_ret (P : Db -> Prop) {A} (a : A) : preserves P (ret a).
Proof. intros w H. exact H. Qed.

Lemma preserves_throw (P : Db -> Prop) {A} (e : Exn) : preserves P (@throw A e).
Proof. intros w H. exact H. Qed.

Lemma preserves_bind (P : Db -> Prop) {A B} (m : M A) (k : A -> M B) :
  preserves P m -> (forall a, preserves P (k a)) -> preserves P (bind m k).
Proof.
  intros Hm Hk w H. unfold bind. specialize (Hm w H).
  destruct (m w) as [[a|e] w1]; simpl in *; [|exact Hm].
  exact (Hk a w1 Hm).
Qed.

Lemma preserves_try_catch (P : Db -> Prop) {A} (m : M A) (h : Exn -> M A) :
  preserves P m -> (forall e, preserves P (h e)) -> preserves P (try_catch m h).
Proof.
  intros Hm Hh w H. unfold try_catch. specialize (Hm w H).
  destruct (m w) as [[a|e] w1]; simpl in *; [exact Hm|].
  exact (Hh e w1 Hm).
Qed.

Lemma preserves_transaction (P : Db -> Prop) {A} (body : M A) :
  preserves P body -> preserves P (transaction body).
Proof.
  intros Hm w H. unfold transaction. specialize (Hm w H).
  destruct (body w) as [[a|e] w1]; simpl in *; [exact Hm|exact H].
Qed.

Lemma NoDup_snoc {A} (a : A) (l : list A) :
  NoDup l -> ~ In a l -> NoDup (l ++ [a]).
Proof.
  intros Hl Ha. apply NoDup_Add with (a := a) (l := l).
  - rewrite <- (app_nil_r l) at 1. apply Add_app.
  - split; assumption.
Qed.

Lemma consistent_more_tasks (d : Db) (row : Task.t) :
  consistent d -> consistent (mkDb (tasks d ++ [row]) (labels d) (taskLabels d)).
Proof.
  intros [Hfk [Hpk Huq]]. split; [|split; assumption].
  intros tl Hin. destruct (Hfk tl Hin) as [[t [Ht Hid]] Hl]. split; [|exact Hl].
  exists t. split; [|exact Hid]. simpl. apply in_or_app. now left.
Qed.

Lemma consistent_more_labels (d : Db) (row : Label.t) :
  ~ In (Label.name row, Label.color row)
       (map (fun l => (Label.name l, Label.color l)) (labels d)) ->
  consistent d -> consistent (mkDb (tasks d) (labels d ++ [row]) (taskLabels d)).
Proof.
  intros Hnew [Hfk [Hpk Huq]]. split; [|split; [assumption|]].
  - intros tl Hin. destruct (Hfk tl Hin) as [Ht [l [Hl Hid]]]. split; [exact Ht|].
    exists l. split; [|exact Hid]. simpl. apply in_or_app. now left.
  - unfold name_color_unique in *. simpl. rewrite map_app. simpl.
    now apply NoDup_snoc.
Qed.

Lemma consistent_more_taskLabels (d : Db) (row : TaskLabel.t) :
  ~ In row (taskLabels d) ->
  (exists t, In t (tasks d) /\ Task.id t = TaskLabel.taskId row) ->
  (exists l, In l (labels d) /\ Label.id l = TaskLabel.labelId row) ->
  consistent d -> consistent (mkDb (tasks d) (labels d) (taskLabels d ++ [row])).
Proof.
  intros Hnew Ht Hl [Hfk [Hpk Huq]]. split; [|split; [|assumption]].
  - intros tl Hin. simpl in Hin. apply in_app_or in Hin.
    destruct Hin as [Hin|[<-|[]]]; [exact (Hfk tl Hin)|]. split; assumption.
  - unfold pairs_unique in *. simpl. now apply NoDup_snoc.
Qed.

Section Invariants.

Variable cuid : nat -> string.

Lemma task_create_consistent (data : TaskCreateInput) :
  preserves consistent (task_create cuid data).
Proof.
  intros w H. pose proof (task_create_db cuid data w) as Hdb.
  destruct (task_create cuid data w) as [[row|e] w']; simpl; rewrite Hdb.
  - now apply consistent_more_tasks.
  - exact H.
Qed.

Lemma label_findFirst_same (P : Db -> Prop) (name : jsval) :
  preserves P (label_findFirst name).
Proof.
  intros w H. pose proof (label_findFirst_db name w) as Hdb.
  destruct (label_findFirst name w) as [[found|e] w']; simpl.
  - destruct Hdb as [-> _]. exact H.
  - rewrite Hdb. exact H.
Qed.

Lemma label_create_consistent (name color : jsval) :
  preserves consistent (label_create cuid name color).
Proof.
  intros w H. pose proof (label_create_db cuid name color w) as Hdb.
  destruct (label_create cuid name color w) as [[row|e] w'] eqn:Erun; simpl.
  - destruct (label_create_ok cuid name color w w' row Erun)
      as [_ [_ [Hnew [_ [_ ->]]]]].
    now apply consistent_more_labels.
  - rewrite Hdb. exact H.
Qed.

Lemma taskLabel_create_consistent (tid lid : string) :
  preserves consistent (taskLabel_create tid lid).
Proof.
  intros w H.
  destruct (taskLabel_create tid lid w) as [[row|e] w'] eqn:Erun; simpl.
  - destruct (taskLabel_create_ok tid lid w w' row Erun)
      as [Hrow [Hnew [Ht [Hl ->]]]].
    apply consistent_more_taskLabels; auto; rewrite Hrow; simpl; assumption.
  - destruct (taskLabel_create_throws tid lid w w' e Erun) as [-> _]. exact H.
Qed.

Lemma process_label_consistent (tid : string) (label : LabelData.t) :
  preserves consistent (process_label cuid tid label).
Proof.
  unfold process_label.
  apply preserves_bind; [apply label_findFirst_same|]. intros found.
  apply preserves_bind.
  - destruct found as [l|]; [apply preserves_ret|].
    apply preserves_bind; [apply label_create_consistent|].
    intros newLabel. apply preserves_ret.
  - intros labelId. apply preserves_bind; [apply taskLabel_create_consistent|].
    intros _. apply preserves_ret.
Qed.

Lemma process_labels_preserves (P : Db -> Prop) (tid : string)
    (ls : list LabelData.t) :
  (forall label, preserves P (process_label cuid tid label)) ->
  preserves P (process_labels cuid tid ls).
Proof.
  intros Hround. induction ls as [|x ls IH]; simpl.
  - apply preserves_ret.
  - apply preserves_bind; [apply Hround|]. intros _. exact IH.
Qed.

Lemma create_task_consistent (data : Data.t) (dueDate : option (option Z)) :
  preserves consistent (create_task cuid data dueDate).
Proof.
  unfold create_task.
  apply preserves_bind; [apply task_create_consistent|]. intros createdTask.
  apply preserves_bind; [|intros _; apply preserves_ret].
  apply process_labels_preserves. intros label. apply process_label_consistent.
Qed.

(** *** Label names *)

Lemma find_none_not_named (n : string) (ls : list Label.t) :
  find (name_matches (Some n)) ls = None -> ~ In n (map Label.name ls).
Proof.
  intros Hnone Hin. apply in_map_iff in Hin. destruct Hin as [l [Hname Hl]].
  pose proof (find_none _ _ Hnone l Hl) as H. simpl in H.
  rewrite Hname, String.eqb_refl in H. discriminate.
Qed.

Lemma process_label_names_distinct (tid : string) (label : LabelData.t) :
  preserves names_distinct (process_label cuid tid label).
Proof.
  intros w H. pose proof (process_label_round cuid tid label w) as Hround.
  destruct (process_label cuid tid label w) as [r w']; simpl.
  destruct Hround as [_ [created [Hlabels [Hcreated _]]]].
  unfold names_distinct in *. rewrite Hlabels.
  destruct Hcreated as [->|[l [-> [_ Hnone]]]].
  - now rewrite app_nil_r.
  - rewrite map_app. simpl.
    apply NoDup_snoc; [exact H|]. now apply find_none_not_named.
Qed.

Lemma task_create_names_distinct (data : TaskCreateInput) :
  preserves names_distinct (task_create cuid data).
Proof.
  intros w H. pose proof (task_create_db cuid data w) as Hdb.
  destruct (task_create cuid data w) as [[row|e] w']; simpl;
    unfold names_distinct in *; rewrite Hdb; exact H.
Qed.

End Invariants.

(** ** Create requests, further *)

Lemma sample_db_consistent : consistent sample_db.
Proof.
  split; [|split].
  - intros tl [<-|[]]. split.
    + exists report_task. split; [left; reflexivity|reflexivity].
    + exists work_label. split; [left; reflexivity|reflexivity].
  - repeat constructor. intros [].
  - repeat constructor. intros [].
Qed.

Lemma sample_db_names_distinct : names_distinct sample_db.
Proof.
  repeat constructor. intros [].
Qed.

Section CreateFurther.

Variable Date_getTime : jsval -> option Z.
Variable cuid : nat -> string.

Lemma request_json_preserves (P : Db -> Prop) (request : Request) :
  preserves P (request_json request).
Proof.
  unfold request_json. destruct (json request); intros w H; exact H.
Qed.

Lemma POST_preserves (P : Db -> Prop) (request : Request) :
  (forall data dueDate, preserves P (create_task cuid data dueDate)) ->
  preserves P (POST Date_getTime cuid request).
Proof.
  intros Hbody. unfold POST.
  apply preserves_try_catch; [|intros e; apply preserves_ret].
  apply preserves_bind; [apply request_json_preserves|]. intros data.
  destruct (invalid_dueDate Date_getTime data); [apply preserves_ret|].
  apply preserves_bind; [|intros task; apply preserves_ret].
  apply preserves_transaction. apply Hbody.
Qed.

(** X1. Whatever the create handler does, it leaves the constraints of the
    schema in force: every association row still points to a task row and a
    label row, no (taskId, labelId) pair and no (name, color) pair occurs
    twice. *)
Theorem POST_keeps_constraints (request : Request) (w : World) :
  consistent (db w) ->
  consistent (db (snd (POST Date_getTime cuid request w))).
Proof.
  apply POST_preserves. intros data dueDate. apply create_task_consistent.
Qed.

(** X2. When no two label rows share a name, none do after a create
    request either: the handler only inserts a label under a name that no
    row carries. *)
Theorem POST_keeps_names_distinct (request : Request) (w : World) :
  names_distinct (db w) ->
  names_distinct (db (snd (POST Date_getTime cuid request w))).
Proof.
  apply POST_preserves. intros data dueDate. unfold create_task.
  apply preserves_bind; [apply task_create_names_distinct|]. intros createdTask.
  apply preserves_bind; [|intros _; apply preserves_ret].
  apply process_labels_preserves. intros label. apply process_label_names_distinct.
Qed.

End CreateFurther.

Lemma POST_keeps_constraints_witness :
  consistent (db sample_world)
  /\ consistent
       (db (snd (POST example_Date_getTime example_cuid (post with_new_label)
                   sample_world))).
Proof.
  split; [exact sample_db_consistent|].
  apply (POST_keeps_constraints example_Date_getTime example_cuid
           (post with_new_label) sample_world).
  exact sample_db_consistent.
Defined.

Lemma POST_keeps_names_distinct_witness :
  names_distinct (db sample_world)
  /\ snd (POST example_Date_getTime example_cuid (post with_new_label) sample_world)
     = after_trip
  /\ labels (db after_trip) = labels (db sample_world) ++ [travel_label]
  /\ names_distinct
       (db (snd (POST example_Date_getTime example_cuid (post with_new_label)
                   sample_world))).
Proof.
  split; [exact sample_db_names_distinct|].
  split; [reflexivity|]. split; [reflexivity|].
  apply (POST_keeps_names_distinct example_Date_getTime example_cuid
           (post with_new_label) sample_world).
  exact sample_db_names_distinct.
Defined.

Section CreateSuccess.

Variable Date_getTime : jsval -> option Z.
Variable cuid : nat -> string.

(** A completed loop: one association per entry, all for the same task,
    appended in order, each pointing to the row that a lookup of the entry's
    name returns; the task is linked under every name it was given. *)
Lemma process_labels_ok (tid : string) (ls : list LabelData.t) (w w' : World) (u : unit) :
  process_labels cuid tid ls w = (Ok u, w') ->
  tasks (db w') = tasks (db w)
  /\ (exists added,
         taskLabels (db w') = taskLabels (db w) ++ added
         /\ length added = length ls
         /\ (forall tl, In tl added -> TaskLabel.taskId tl = tid)
         /\ Forall2 (association_of (db w') tid) ls added)
  /\ (forall label n, In label ls -> LabelData.name label = JStr n ->
                      linked tid n (db w')).
Proof.
  revert w. induction ls as [|x ls IH]; intros w Hrun; simpl in Hrun.
  - unfold ret in Hrun. injection Hrun as _ <-.
    split; [reflexivity|]. split.
    + exists []. rewrite app_nil_r. split; [reflexivity|]. split; [reflexivity|].
      split; [intros tl []|constructor].
    + intros label n [].
  - unfold bind in Hrun.
    destruct (process_label cuid tid x w) as [[ux|e] w1] eqn:Ex; [|discriminate].
    pose proof (process_label_round cuid tid x w) as Hround. rewrite Ex in Hround.
    destruct Hround as [Htasks [_ [_ [_ [f [l [Hf [Hfound Hlink]]]]]]]].
    destruct (IH w1 Hrun) as [Htasks' [[added [Happ [Hlen [Hall Hassoc]]]] Hlinked]].
    split; [congruence|]. split.
    + exists (TaskLabel.mk tid (Label.id l) :: added).
      rewrite Happ, Hlink, <- app_assoc. split; [reflexivity|].
      split; [simpl; congruence|]. split.
      * intros tl [<-|Hin]; [reflexivity|now apply Hall].
      * constructor; [|exact Hassoc]. split; [reflexivity|].
        exists f, l. split; [exact Hf|]. split; [|reflexivity].
        exact (process_labels_keeps_lookup cuid tid ls w1 w' (Ok u) f l Hfound Hrun).
    + intros label n [<-|Hin] Hname; [|now apply (Hlinked label n)].
      eapply process_labels_keeps_link; [|exact Hrun].
      exact (process_label_links cuid tid n x w w1 ux Hname Ex).
Qed.

Lemma create_task_ok (data : Data.t) (dueDate : option (option Z))
    (w w' : World) (row : Task.t) :
  create_task cuid data dueDate w = (Ok row, w') ->
  exists w0,
    task_create cuid
      (mkTaskCreateInput (Data.title data) (Data.description data)
         (Data.priority data) (Data.status data) dueDate) w = (Ok row, w0)
    /\ process_labels cuid (Task.id row) (labelData_of data) w0 = (Ok tt, w').
Proof.
  unfold create_task, bind, labelData_of.
  destruct (task_create cuid _ w) as [[createdTask|e] w0]; [|discriminate].
  destruct (process_labels cuid (Task.id createdTask) _ w0) as [[[]|e] w1] eqn:Eloop;
    [|discriminate].
  unfold ret. intros H. injection H as <- <-. exists w0. rewrite Eloop. auto.
Qed.

Lemma POST_200 (request : Request) (data : Data.t) (w w' : World) (response : Response) :
  json request = Some data ->
  POST Date_getTime cuid request w = (Ok response, w') ->
  status response = 200 ->
  exists row,
    response = mkResponse 200 (TaskJson row)
    /\ invalid_dueDate Date_getTime data = false
    /\ create_task cuid data (dueDate_of Date_getTime data) w = (Ok row, w').
Proof.
  intros Hjson Hrun Hstatus.
  destruct (invalid_dueDate Date_getTime data) eqn:Hguard.
  { rewrite (POST_dueDate_guard _ _ _ _ _ Hjson Hguard) in Hrun.
    injection Hrun as <- <-. discriminate. }
  rewrite (POST_runs_transaction _ _ _ _ _ Hjson Hguard) in Hrun.
  destruct (create_task cuid data (dueDate_of Date_getTime data) w)
    as [[row|e] w1].
  - injection Hrun as <- <-. exists row. auto.
  - injection Hrun as <- <-. discriminate.
Qed.

(** X3. A create request answered 200 has written exactly this: one task
    row, appended, holding the title as given, the priority and status as
    given or else MEDIUM and TODO, the parsed due date or null, and a fresh
    id; and one association row per label entry, appended in the order of
    the entries, the row of an entry linking the new task to the label row
    that a lookup of the entry's name returns afterwards.  The body of the
    answer is that task row, and the rows that were there before are all
    still there. *)
Theorem POST_success_writes
    (request : Request) (data : Data.t) (w w' : World) (response : Response) :
  json request = Some data ->
  POST Date_getTime cuid request w = (Ok response, w') ->
  status response = 200 ->
  exists row added,
    body response = TaskJson row
    /\ Data.title data = JStr (Task.title row)
    /\ (Data.priority data = JStr (Task.priority row)
        \/ (Data.priority data = JUndefined /\ Task.priority row = "MEDIUM"))
    /\ (Data.status data = JStr (Task.status row)
        \/ (Data.status data = JUndefined /\ Task.status row = "TODO"))
    /\ Task.dueDate row = (if truthy (Data.dueDate data)
                           then Date_getTime (Data.dueDate data)
                           else None)
    /\ Task.id row = cuid (cuids w)
    /\ tasks (db w') = tasks (db w) ++ [row]
    /\ taskLabels (db w') = taskLabels (db w) ++ added
    /\ length added = length (labelData_of data)
    /\ (forall tl, In tl added -> TaskLabel.taskId tl = Task.id row)
    /\ Forall2 (association_of (db w') (Task.id row)) (labelData_of data) added
    /\ (forall l, In l (labels (db w)) -> In l (labels (db w'))).
Proof.
  intros Hjson Hrun Hstatus.
  destruct (POST_200 request data w w' response Hjson Hrun Hstatus)
    as [row [-> [Hguard Hcreate]]].
  destruct (create_task_ok data _ w w' row Hcreate) as [w0 [Htask Hloop]].
  destruct (task_create_ok cuid _ w w0 row Htask)
    as [Htitle [_ [Hpriority [Hstatus' [Hdue [Hid [_ Hdb0]]]]]]].
  destruct (process_labels_ok (Task.id row) (labelData_of data) w0 w' tt Hloop)
    as [Htasks [[added [Happ [Hlen [Hall Hassoc]]]] _]].
  simpl in Htitle, Hpriority, Hstatus', Hdue.
  exists row, added. split; [reflexivity|]. split; [exact Htitle|].
  split.
  { destruct (Data.priority data); simpl in Hpriority; try discriminate;
      injection Hpriority as <-; auto. }
  split.
  { destruct (Data.status data); simpl in Hstatus'; try discriminate;
      injection Hstatus' as <-; auto. }
  split.
  { unfold invalid_dueDate, dueDate_of, optional_datetime in *.
    destruct (truthy (Data.dueDate data)); simpl in *.
    - destruct (Date_getTime (Data.dueDate data)) as [t|]; simpl in *;
        [|discriminate].
      destruct (storable_time t); congruence.
    - congruence. }
  split; [exact Hid|].
  rewrite Htasks, Happ, Hdb0. simpl.
  repeat split; auto.
  intros l Hin.
  destruct (process_labels_appends cuid (Task.id row) (labelData_of data) w0)
    as [created [Hlabels _]].
  rewrite Hloop in Hlabels. simpl in Hlabels. rewrite Hlabels, Hdb0. simpl.
  apply in_or_app. now left.
Qed.

(** After a create request answered 200, the new task is linked under every
    name of its label list: for each entry, the row that a lookup of its
    name returns is associated with the task. *)
Lemma POST_links_every_name
    (request : Request) (data : Data.t) (w w' : World) (response : Response) :
  json request = Some data ->
  POST Date_getTime cuid request w = (Ok response, w') ->
  status response = 200 ->
  exists row,
    body response = TaskJson row
    /\ In row (tasks (db w'))
    /\ forall label n,
        In label (labelData_of data) -> LabelData.name label = JStr n ->
        has_label_among (db w') row [n].
Proof.
  intros Hjson Hrun Hstatus.
  destruct (POST_200 request data w w' response Hjson Hrun Hstatus)
    as [row [-> [Hguard Hcreate]]].
  destruct (create_task_ok data _ w w' row Hcreate) as [w0 [Htask Hloop]].
  destruct (task_create_ok cuid _ w w0 row Htask)
    as [_ [_ [_ [_ [_ [_ [_ Hdb0]]]]]]].
  destruct (process_labels_ok (Task.id row) (labelData_of data) w0 w' tt Hloop)
    as [Htasks [_ Hlinked]].
  exists row. split; [reflexivity|]. split.
  { rewrite Htasks, Hdb0. simpl. apply in_or_app. right. now left. }
  intros label n Hin Hname.
  destruct (Hlinked label n Hin Hname) as [l [Hfind Hassoc]].
  destruct (findFirst_row_some _ _ _ Hfind) as [Hl Hn]. apply String.eqb_eq in Hn.
  exists (TaskLabel.mk (Task.id row) (Label.id l)), l.
  repeat split; auto. simpl. now left.
Qed.



End CreateSuccess.


Lemma POST_success_writes_witness :
  json (post travel_and_work) = Some travel_and_work
  /\ POST example_Date_getTime example_cuid (post travel_and_work) two_works
     = (Ok (mkResponse 200 (TaskJson bug_row)), after_bug)
  /\ exists row added,
      body (mkResponse 200 (TaskJson bug_row)) = TaskJson row
      /\ Data.title travel_and_work = JStr (Task.title row)
      /\ (Data.priority travel_and_work = JStr (Task.priority row)
          \/ (Data.priority travel_and_work = JUndefined /\ Task.priority row = "MEDIUM"))
      /\ (Data.status travel_and_work = JStr (Task.status row)
          \/ (Data.status travel_and_work = JUndefined /\ Task.status row = "TODO"))
      /\ Task.dueDate row = (if truthy (Data.dueDate travel_and_work)
                             then example_Date_getTime (Data.dueDate travel_and_work)
                             else None)
      /\ Task.id row = example_cuid (cuids two_works)
      /\ tasks (db after_bug) = tasks (db two_works) ++ [row]
      /\ taskLabels (db after_bug) = taskLabels (db two_works) ++ added
      /\ length added = length (labelData_of travel_and_work)
      /\ (forall tl, In tl added -> TaskLabel.taskId tl = Task.id row)
      /\ Forall2 (association_of (db after_bug) (Task.id row))
           (labelData_of travel_and_work) added
      /\ (forall l, In l (labels (db two_works)) -> In l (labels (db after_bug))).
Proof.
  split; [reflexivity|]. split; [reflexivity|].
  apply (POST_success_writes example_Date_getTime example_cuid (post travel_and_work)
           travel_and_work two_works after_bug
           (mkResponse 200 (TaskJson bug_row))); reflexivity.
Defined.

Lemma no_name_no_pair (n c : string) (ls : list Label.t) :
  find (fun l => Label.name l =? n) ls = None ->
  existsb (fun l => (Label.name l =? n) && (Label.color l =? c)) ls = false.
Proof.
  intros Hnone. destruct (existsb _ ls) eqn:E; [|reflexivity].
  apply existsb_exists in E. destruct E as [l [Hin Hboth]].
  apply andb_true_iff in Hboth. destruct Hboth as [Hname _].
  pose proof (find_none _ _ Hnone l Hin) as H. simpl in H. congruence.
Qed.

Section NewLabel.

Variable cuid : nat -> string.

(** X5. A round of the label loop on a name that no label row carries,
    with the engine up: a label row is inserted under that name, with the
    requested color when one is given as a non-empty string (whatever the
    string: no pattern is checked) and with "#3b82f6" when the color is
    absent or falsy, and the task is associated with the new row. *)
Theorem new_label_gets_requested_or_default_color
    (tid n c : string) (requested : jsval) (w : World) :
  find (fun l => Label.name l =? n) (labels (db w)) = None ->
  faults w = [] ->
  (exists t, In t (tasks (db w)) /\ Task.id t = tid) ->
  ~ In (TaskLabel.mk tid (cuid (cuids w))) (taskLabels (db w)) ->
  (requested = JStr c /\ c <> "") \/ (truthy requested = false /\ c = "#3b82f6") ->
  process_label cuid tid (LabelData.mk (JStr n) requested) w
  = (Ok tt,
     mkWorld (mkDb (tasks (db w))
                   (labels (db w) ++ [Label.mk (cuid (cuids w)) n c (now w) (now w)])
                   (taskLabels (db w) ++ [TaskLabel.mk tid (cuid (cuids w))]))
             [] (S (cuids w)) (now w)).
Proof.
  intros Hnone Hquiet [t [Ht Htid]] Hnew Hcolor.
  assert (Hjs : js_or requested (JStr default_color) = JStr c).
  { unfold js_or. destruct Hcolor as [[-> Hc]|[Hfalsy ->]].
    - simpl. apply String.eqb_neq in Hc. now rewrite Hc.
    - now rewrite Hfalsy. }
  destruct w as [d fs k clk]. simpl in *. subst fs.
  unfold process_label, label_findFirst, label_create, taskLabel_create, engine_call.
  unfold_monad. simpl.
  rewrite (proj2 (findFirst_row_none n (labels d)) Hnone), Hjs. simpl.
  rewrite (no_name_no_pair n c _ Hnone). simpl.
  rewrite (existsb_pair_false _ _ _ Hnew).
  assert (Htask : existsb (fun t0 => Task.id t0 =? tid) (tasks d) = true).
  { apply existsb_exists. exists t. split; [exact Ht|]. now apply String.eqb_eq. }
  rewrite Htask. simpl.
  rewrite existsb_app. simpl. rewrite String.eqb_refl, orb_true_r. simpl.
  reflexivity.
Qed.

End NewLabel.

Lemma new_label_gets_requested_or_default_color_witness :
  find (fun l => Label.name l =? "travel") (labels (db sample_world)) = None
  /\ process_label example_cuid "c2" (LabelData.mk (JStr "travel") (JStr "teal"))
       sample_world
     = (Ok tt,
        mkWorld (mkDb (tasks (db sample_world))
                      (labels (db sample_world)
                       ++ [Label.mk (example_cuid (cuids sample_world)) "travel" "teal"
                             (now sample_world) (now sample_world)])
                      (taskLabels (db sample_world)
                       ++ [TaskLabel.mk "c2" (example_cuid (cuids sample_world))]))
                [] (S (cuids sample_world)) (now sample_world)).
Proof.
  split; [reflexivity|].
  apply (new_label_gets_requested_or_default_color example_cuid "c2" "travel" "teal"
           (JStr "teal") sample_world).
  - reflexivity.
  - reflexivity.
  - exists walk_task. split; [right; left; reflexivity|reflexivity].
  - vm_compute. intros [H|[]]. discriminate.
  - left. split; [reflexivity|discriminate].
Defined.

(** ** The schemas against the storage client *)

Section SchemaAccepted.

Variable Date_getTime : jsval -> option Z.
Variable cuid : nat -> string.

Lemma process_label_throws_storage
    (tid : string) (label : LabelData.t) (w w' : World) (e : Exn) :
  LabelSchema label = true ->
  process_label cuid tid label w = (Throw e, w') ->
  from_storage e.
Proof.
  unfold LabelSchema, process_label, bind. intros Hschema.
  destruct (LabelData.name label) as [| |?|?|n]; try discriminate.
  destruct (label_findFirst (JStr n) w) as [[found|e0] w1] eqn:Efind.
  2:{ intros H. injection H as <- <-.
      destruct (label_findFirst_throws n w w1 e0 Efind) as [_ ->]. exact I. }
  assert (Hlink : forall lid w2 w3 e1,
             (let (r, w4) := taskLabel_create tid lid w2 in
              match r with
              | Ok _ => ret tt w4
              | Throw e2 => (Throw e2, w4)
              end) = (@Throw unit e1, w3) -> from_storage e1).
  { intros lid w2 w3 e1.
    destruct (taskLabel_create tid lid w2) as [[row|e2] w4] eqn:Elink;
      [discriminate|].
    intros H. injection H as <- <-.
    now destruct (taskLabel_create_throws tid lid w2 w4 e2 Elink). }
  destruct found as [l|].
  - unfold ret at 1. apply Hlink.
  - destruct (label_create cuid (JStr n)
                (js_or (LabelData.color label) (JStr default_color)) w1)
      as [[newLabel|e0] w2] eqn:Enew.
    + unfold ret at 1. apply Hlink.
    + intros H. injection H as <- <-.
      destruct (label_create_throws cuid n _ w1 w2 e0 Enew) as [_ [Hs|Hcolor]];
        [exact Hs|].
      unfold js_or in Hcolor.
      destruct (LabelData.color label) as [| |?|?|c]; try discriminate.
      simpl in Hcolor. destruct (c =? ""); discriminate.
Qed.

Lemma process_labels_throws_storage
    (tid : string) (ls : list LabelData.t) (w w' : World) (e : Exn) :
  forallb LabelSchema ls = true ->
  process_labels cuid tid ls w = (Throw e, w') ->
  from_storage e.
Proof.
  revert w. induction ls as [|x ls IH]; intros w Hschema Hrun; simpl in *.
  - discriminate.
  - apply andb_true_iff in Hschema. destruct Hschema as [Hx Hls].
    unfold bind in Hrun.
    destruct (process_label cuid tid x w) as [[u|e0] w1] eqn:Ex.
    + exact (IH w1 Hls Hrun).
    + injection Hrun as <- <-.
      exact (process_label_throws_storage tid x w w1 e0 Hx Ex).
Qed.

(** X6. A body that [CreateTaskSchema] accepts gets past the due-date check
    of the handler.  When its due date, if it has one, falls in the years
    0000 to 9999, whatever then stops its transaction comes from the engine
    or from a constraint of the database: the storage client refuses none of
    its arguments.  (The schema also accepts dates outside those years; the
    client does not.) *)
Theorem schema_accepted_body_passes_client_checks (data : Data.t) :
  CreateTaskSchema Date_getTime data = true ->
  (forall t, dueDate_of Date_getTime data = Some (Some t) -> storable_time t = true) ->
  invalid_dueDate Date_getTime data = false
  /\ forall w w' e,
      create_task cuid data (dueDate_of Date_getTime data) w = (Throw e, w') ->
      from_storage e.
Proof.
  unfold CreateTaskSchema. intros Hschema Hrange.
  repeat (apply andb_true_iff in Hschema;
          let H := fresh "H" in destruct Hschema as [Hschema H]).
  rename Hschema into Htitle, H3 into Hdesc, H2 into Hprio, H1 into Hstat,
    H0 into Hdue, H into Hlabels.
  assert (Hguard : invalid_dueDate Date_getTime data = false).
  { unfold invalid_dueDate, dueDate_of.
    destruct (Data.dueDate data) as [| |?|?|s]; try discriminate; [reflexivity|].
    destruct (truthy (JStr s)); simpl in *; [|reflexivity].
    destruct (Date_getTime (JStr s)); [reflexivity|discriminate]. }
  split; [exact Hguard|].
  intros w w' e. unfold create_task, bind.
  destruct (task_create cuid _ w) as [[createdTask|e0] w0] eqn:Etask.
  - destruct (process_labels cuid (Task.id createdTask) _ w0) as [[u|e1] w1] eqn:Eloop;
      [discriminate|].
    intros H. injection H as <- <-.
    destruct (Data.labels data) as [ls|].
    + exact (process_labels_throws_storage _ ls w0 w1 e1 Hlabels Eloop).
    + simpl in Eloop. discriminate.
  - intros H. injection H as <- <-.
    destruct (task_create_throws cuid _ w w0 e0 Etask)
      as [_ [->|[field [-> Hwhich]]]]; [exact I|].
    simpl in Hwhich. exfalso.
    destruct Hwhich as [Hw|[Hw|[Hw|[Hw|Hw]]]].
    + destruct (Data.title data); discriminate.
    + destruct (Data.description data); discriminate.
    + destruct (Data.priority data); discriminate.
    + destruct (Data.status data); discriminate.
    + unfold invalid_dueDate, dueDate_of, optional_datetime in *.
      destruct (truthy (Data.dueDate data)); simpl in *; [|discriminate].
      destruct (Date_getTime (Data.dueDate data)) as [t|]; [|discriminate].
      rewrite (Hrange t eq_refl) in Hw. discriminate.
Qed.

End SchemaAccepted.

Lemma schema_accepted_body_passes_client_checks_witness :
  CreateTaskSchema example_Date_getTime well_formed = true
  /\ dueDate_of example_Date_getTime well_formed = Some (Some 1705276800000%Z)
  /\ storable_time 1705276800000 = true
  /\ invalid_dueDate example_Date_getTime well_formed = false
  /\ forall w w' e,
      create_task example_cuid well_formed
        (dueDate_of example_Date_getTime well_formed) w = (Throw e, w') ->
      from_storage e.
Proof.
  split; [reflexivity|]. split; [reflexivity|]. split; [reflexivity|].
  apply (schema_accepted_body_passes_client_checks example_Date_getTime example_cuid
           well_formed).
  - reflexivity.
  - intros t H. injection H as <-. reflexivity.
Defined.

(** ** List requests, further *)








Lemma filter_all {A} (p : A -> bool) (l : list A) :
  (forall a, In a l -> p a = true) -> filter p l = l.
Proof.
  induction l as [|x l IH]; intros H; simpl; [reflexivity|].
  rewrite (H x (or_introl eq_refl)). f_equal. apply IH. intros a Ha. apply H. now right.
Qed.

Lemma no_keys_matches_all (d : Db) (wh : TaskWhere) (l : list Task.t) :
  has_keys wh = false -> filter (task_matches d wh) l = l.
Proof.
  intros H. apply filter_all. intros t _. unfold task_matches.
  destruct wh as [[?|] [?|] [?|]]; try discriminate. reflexivity.
Qed.

(** What [GET] returns while the engine is up. *)
Lemma GET_ok (request : Request) (w : World) :
  hd false (faults w) = false ->
  GET request w
  = (Ok (mkResponse 200
           (TasksJson
              (map (fun t => mkTaskWithLabels t (labels_of (db w) (Task.id t)))
                 (order_by_dueDate
                    (filter (task_matches (db w) (where_of request)) (tasks (db w))))))),
     mkWorld (db w) (tl (faults w)) (cuids w) (now w)).
Proof.
  intros Hup. unfold GET, try_catch, task_findMany. unfold_monad.
  rewrite (engine_call_ok w Hup). fold (where_of request).
  destruct (has_keys (where_of request)) eqn:Ekeys; [reflexivity|].
  now rewrite (no_keys_matches_all (db w) (where_of request) _ Ekeys).
Qed.




(** X9. A list request never throws and never writes: it answers 200 when
    its one storage call goes through and 500 with the body
    [{error: "Failed to fetch tasks"}] when that call fails, and the
    database is the same afterwards in both cases. *)
Theorem GET_reads_only (request : Request) (w : World) :
  exists response w',
    GET request w = (Ok response, w')
    /\ db w' = db w
    /\ ((hd false (faults w) = false /\ status response = 200)
        \/ (hd false (faults w) = true
            /\ response = mkResponse 500 (ErrorJson "Failed to fetch tasks"))).
Proof.
  destruct (hd false (faults w)) eqn:Hup.
  - destruct w as [d fs k clk]. simpl in Hup.
    destruct fs as [|[|] fs]; try discriminate.
    unfold GET, try_catch, task_findMany, engine_call. unfold_monad. simpl.
    do 2 eexists. split; [reflexivity|]. split; [reflexivity|]. right. auto.
  - rewrite (GET_ok request w Hup). do 2 eexists.
    split; [reflexivity|]. split; [reflexivity|]. left. auto.
Qed.



(** ** Creating, then listing *)

Section CreateThenList.

Variable Date_getTime : jsval -> option Z.
Variable cuid : nat -> string.

(** X10. Round trip.  After a create request answered 200, a list request
    filtered on any one name of its label list, served while the engine is
    up, returns the created task, and among the labels it comes with is one
    carrying that name. *)
Theorem created_task_is_listed_under_its_labels
    (request : Request) (data : Data.t) (w w' : World) (response : Response)
    (label : LabelData.t) (n : string) :
  json request = Some data ->
  POST Date_getTime cuid request w = (Ok response, w') ->
  status response = 200 ->
  In label (labelData_of data) ->
  LabelData.name label = JStr n ->
  hd false (faults w') = false ->
  exists row listed w'',
    body response = TaskJson row
    /\ GET (mkRequest [("label", n)] None) w'
       = (Ok (mkResponse 200 (TasksJson listed)), w'')
    /\ exists entry,
        In entry listed /\ task entry = row
        /\ exists tl l, In (tl, l) (task_labels entry) /\ Label.name l = n.
Proof.
  intros Hjson Hrun Hstatus Hin Hname Hup.
  destruct (POST_links_every_name Date_getTime cuid request data w w' response
              Hjson Hrun Hstatus) as [row [Hbody [Hrow Hlinked]]].
  specialize (Hlinked label n Hin Hname).
  exists row. do 2 eexists. split; [exact Hbody|].
  split; [exact (GET_ok _ w' Hup)|].
  exists (mkTaskWithLabels row (labels_of (db w') (Task.id row))).
  split; [|split; [reflexivity|]].
  - apply (in_map (fun t => mkTaskWithLabels t (labels_of (db w') (Task.id t)))).
    apply order_by_dueDate_In. apply filter_In.
    split; [exact Hrow|].
    apply (task_matches_holds (db w') row [n] [] []). auto.
  - destruct Hlinked as [tl [l [H1 [H2 [H3 [H4 H5]]]]]].
    exists tl, l. split.
    + simpl. apply labels_of_In. auto.
    + destruct H5 as [H5|[]]. now symmetry.
Qed.

End CreateThenList.

Lemma created_task_is_listed_under_its_labels_witness :
  POST example_Date_getTime example_cuid (post with_new_label) sample_world
  = (Ok (mkResponse 200 (TaskJson trip_row)), after_trip)
  /\ exists row listed w'',
      body (mkResponse 200 (TaskJson trip_row)) = TaskJson row
      /\ GET (mkRequest [("label", "travel")] None) after_trip
         = (Ok (mkResponse 200 (TasksJson listed)), w'')
      /\ exists entry,
          In entry listed /\ task entry = row
          /\ exists tl l, In (tl, l) (task_labels entry) /\ Label.name l = "travel".
Proof.
  split; [reflexivity|].
  apply (created_task_is_listed_under_its_labels example_Date_getTime example_cuid
           (post with_new_label) with_new_label sample_world after_trip
           (mkResponse 200 (TaskJson trip_row))
           (LabelData.mk (JStr "travel") JUndefined) "travel");
    try reflexivity.
  left. reflexivity.
Defined.

(** ** Delete requests, further *)

Lemma DELETE_runs (request : Request) (id : string) (w : World) :
  searchParams_get "id" (searchParams request) = Some id ->
  id <> "" ->
  DELETE request w
  = match taskLabel_deleteMany id w with
    | (Ok _, w1) =>
        match task_delete id w1 with
        | (Ok row, w2) =>
            (Ok (mkResponse 200 (DeletedJson true "Task deleted successfully" row)), w2)
        | (Throw e, w2) =>
            (Ok (mkResponse 500 (ErrorDetailsJson "Failed to delete task" e)), w2)
        end
    | (Throw e, w1) =>
        (Ok (mkResponse 500 (ErrorDetailsJson "Failed to delete task" e)), w1)
    end.
Proof.
  intros Hid Hne. unfold DELETE, try_catch, bind. rewrite Hid, (missing_false id Hne).
  destruct (taskLabel_deleteMany id w) as [[k|e] w1]; [|reflexivity].
  destruct (task_delete id w1) as [[row|e] w2]; reflexivity.
Qed.

Lemma DELETE_no_id (request : Request) (w : World) :
  missing (searchParams_get "id" (searchParams request)) = true ->
  DELETE request w = (Ok (mkResponse 400 (ErrorJson "Task ID is required")), w).
Proof.
  intros H. unfold DELETE, try_catch. rewrite H. reflexivity.
Qed.

Lemma missing_or_id (o : option string) :
  missing o = true \/ exists id, o = Some id /\ id <> "".
Proof.
  destruct o as [id|]; [|now left]. simpl.
  destruct (id =? "") eqn:E; [now left|]. right. exists id.
  split; [reflexivity|]. now apply String.eqb_neq.
Qed.

Lemma filter_keeps_other_tasks (id : string) (l : list Task.t) (t : Task.t) :
  In t l -> Task.id t <> id -> In t (filter (fun t0 => negb (Task.id t0 =? id)) l).
Proof.
  intros Hin Hne. apply filter_In. split; [exact Hin|].
  apply negb_true_iff. now apply String.eqb_neq.
Qed.

Lemma filter_keeps_other_pairs (id : string) (l : list TaskLabel.t) (tl : TaskLabel.t) :
  In tl l -> TaskLabel.taskId tl <> id ->
  In tl (filter (fun tl0 => negb (TaskLabel.taskId tl0 =? id)) l).
Proof.
  intros Hin Hne. apply filter_In. split; [exact Hin|].
  apply negb_true_iff. now apply String.eqb_neq.
Qed.

(** What a delete request with an id can leave behind: the database as it
    was, or without the associations of the task, or without those and
    without the task rows of that id. *)
Lemma DELETE_db (request : Request) (id : string) (w : World) :
  searchParams_get "id" (searchParams request) = Some id ->
  id <> "" ->
  exists response w',
    DELETE request w = (Ok response, w')
    /\ ((status response = 500 /\ db w' = db w)
        \/ (status response = 500
            /\ db w' = mkDb (tasks (db w)) (labels (db w))
                            (filter (fun tl => negb (TaskLabel.taskId tl =? id))
                                    (taskLabels (db w))))
        \/ (exists row,
               response = mkResponse 200
                            (DeletedJson true "Task deleted successfully" row)
               /\ find (fun t => Task.id t =? id) (tasks (db w)) = Some row
               /\ db w' = mkDb (filter (fun t => negb (Task.id t =? id)) (tasks (db w)))
                               (labels (db w))
                               (filter (fun tl => negb (TaskLabel.taskId tl =? id))
                                       (taskLabels (db w))))).
Proof.
  intros Hid Hne. rewrite (DELETE_runs request id w Hid Hne).
  pose proof (taskLabel_deleteMany_db id w) as H1.
  destruct (taskLabel_deleteMany id w) as [[k|e] w1].
  - destruct H1 as [Hdb1 _].
    pose proof (task_delete_db id w1) as H2.
    destruct (task_delete id w1) as [[row|e] w2].
    + destruct H2 as [Hfind [_ Hdb2]]. do 2 eexists. split; [reflexivity|].
      right. right. exists row. rewrite Hdb2, Hdb1 in *. simpl in *. auto.
    + destruct H2 as [Hdb2 _]. do 2 eexists. split; [reflexivity|].
      right. left. rewrite Hdb2, Hdb1. auto.
  - destruct H1 as [Hdb1 _]. do 2 eexists. split; [reflexivity|]. left. auto.
Qed.

(** X11. A delete request never throws, never inserts a row, never removes
    a label row, and never removes a task row or an association row of
    another task than the one named by [id]. *)
Theorem DELETE_touches_only_the_named_task (request : Request) (w : World) :
  exists response w',
    DELETE request w = (Ok response, w')
    /\ labels (db w') = labels (db w)
    /\ (forall t, In t (tasks (db w')) -> In t (tasks (db w)))
    /\ (forall tl, In tl (taskLabels (db w')) -> In tl (taskLabels (db w)))
    /\ (forall t, In t (tasks (db w)) ->
                  Some (Task.id t) <> searchParams_get "id" (searchParams request) ->
                  In t (tasks (db w')))
    /\ (forall tl, In tl (taskLabels (db w)) ->
                   Some (TaskLabel.taskId tl)
                   <> searchParams_get "id" (searchParams request) ->
                   In tl (taskLabels (db w'))).
Proof.
  destruct (missing_or_id (searchParams_get "id" (searchParams request)))
    as [Hmiss|[id [Hid Hne]]].
  { rewrite (DELETE_no_id request w Hmiss). do 2 eexists.
    split; [reflexivity|]. repeat split; auto. }
  destruct (DELETE_db request id w Hid Hne) as [response [w' [Hrun Hdb]]].
  exists response, w'. split; [exact Hrun|]. rewrite Hid.
  assert (Hother_t : forall t : Task.t, Some (Task.id t) <> Some id -> Task.id t <> id)
    by (intros t H E; apply H; now rewrite E).
  assert (Hother_tl : forall tl : TaskLabel.t,
             Some (TaskLabel.taskId tl) <> Some id -> TaskLabel.taskId tl <> id)
    by (intros tl H E; apply H; now rewrite E).
  destruct Hdb as [[_ ->]|[[_ ->]|[row [_ [_ ->]]]]]; simpl.
  - repeat split; auto.
  - repeat split; auto.
    + intros tl Hin. now apply filter_In in Hin.
    + intros tl Hin Hne'. apply filter_keeps_other_pairs; auto.
  - repeat split.
    + intros t Hin. now apply filter_In in Hin.
    + intros tl Hin. now apply filter_In in Hin.
    + intros t Hin Hne'. apply filter_keeps_other_tasks; auto.
    + intros tl Hin Hne'. apply filter_keeps_other_pairs; auto.
Qed.

Lemma consistent_without_pairs (d : Db) (id : string) :
  consistent d ->
  consistent (mkDb (tasks d) (labels d)
                   (filter (fun tl => negb (TaskLabel.taskId tl =? id)) (taskLabels d))).
Proof.
  intros [Hfk [Hpk Huq]]. split; [|split; [|exact Huq]].
  - intros tl Hin. simpl in Hin. apply filter_In in Hin. destruct Hin as [Hin _].
    exact (Hfk tl Hin).
  - unfold pairs_unique. simpl. now apply NoDup_filter.
Qed.

Lemma consistent_without_task (d : Db) (id : string) :
  consistent d ->
  consistent (mkDb (filter (fun t => negb (Task.id t =? id)) (tasks d)) (labels d)
                   (filter (fun tl => negb (TaskLabel.taskId tl =? id)) (taskLabels d))).
Proof.
  intros H. destruct (consistent_without_pairs d id H) as [Hfk [Hpk Huq]].
  split; [|split; assumption].
  intros tl Hin. destruct (Hfk tl Hin) as [[t [Ht Htid]] Hl]. split; [|exact Hl].
  exists t. split; [|exact Htid]. simpl in *.
  apply filter_In in Hin. destruct Hin as [_ Hkeep].
  apply filter_In. split; [exact Ht|]. now rewrite Htid.
Qed.

(** X12. Whatever a delete request does, also when its second storage call
    fails, it leaves the constraints of the schema in force: every
    association row still points to a task row and a label row, and no
    (taskId, labelId) pair and no (name, color) pair occurs twice. *)
Theorem DELETE_keeps_constraints (request : Request) (w : World) :
  consistent (db w) ->
  consistent (db (snd (DELETE request w))).
Proof.
  intros H.
  destruct (missing_or_id (searchParams_get "id" (searchParams request)))
    as [Hmiss|[id [Hid Hne]]].
  { now rewrite (DELETE_no_id request w Hmiss). }
  destruct (DELETE_db request id w Hid Hne) as [response [w' [-> Hdb]]]. simpl.
  destruct Hdb as [[_ ->]|[[_ ->]|[row [_ [_ ->]]]]].
  - exact H.
  - now apply consistent_without_pairs.
  - now apply consistent_without_task.
Qed.

Lemma filter_nothing_to_remove {A} (p : A -> bool) (l : list A) :
  (forall a, In a l -> p a = false) -> filter (fun a => negb (p a)) l = l.
Proof.
  intros H. apply filter_all. intros a Ha. now rewrite (H a Ha).
Qed.

(** X13. Deleting a task that is not stored, with the engine up: the answer
    is 500 with the storage client's not-found error as details; tasks and
    labels are as they were, and so is the whole database when every
    association row points to a stored task. *)
Theorem DELETE_unknown_task (request : Request) (id : string) (w : World) :
  searchParams_get "id" (searchParams request) = Some id ->
  id <> "" ->
  hd false (faults w) = false ->
  hd false (tl (faults w)) = false ->
  find (fun t => Task.id t =? id) (tasks (db w)) = None ->
  exists w',
    DELETE request w
    = (Ok (mkResponse 500 (ErrorDetailsJson "Failed to delete task" RecordNotFound)), w')
    /\ tasks (db w') = tasks (db w)
    /\ labels (db w') = labels (db w)
    /\ (references_exist (db w) -> db w' = db w).
Proof.
  intros Hid Hne Hup1 Hup2 Hnone.
  unfold DELETE, try_catch, taskLabel_deleteMany, task_delete.
  rewrite Hid, (missing_false id Hne). unfold_monad.
  rewrite (engine_call_ok w Hup1). simpl.
  rewrite engine_call_ok by exact Hup2. simpl. rewrite Hnone.
  eexists. split; [reflexivity|]. simpl. repeat split.
  intros Hfk.
  rewrite (filter_nothing_to_remove (fun tl => TaskLabel.taskId tl =? id)).
  - now destruct (db w).
  - intros tl Hin. apply String.eqb_neq. intros Heq.
    destruct (Hfk tl Hin) as [[t [Ht Htid]] _].
    pose proof (find_none _ _ Hnone t Ht) as Hno. simpl in Hno.
    rewrite Htid, Heq, String.eqb_refl in Hno. discriminate.
Qed.

Lemma DELETE_keeps_constraints_witness :
  consistent (db second_call_fails)
  /\ consistent (db (snd (DELETE delete_report second_call_fails))).
Proof.
  split; [exact sample_db_consistent|].
  apply (DELETE_keeps_constraints delete_report second_call_fails).
  exact sample_db_consistent.
Defined.

Lemma DELETE_unknown_task_witness :
  searchParams_get "id" (searchParams delete_unknown) = Some "c9"
  /\ find (fun t => Task.id t =? "c9") (tasks (db sample_world)) = None
  /\ exists w',
      DELETE delete_unknown sample_world
      = (Ok (mkResponse 500 (ErrorDetailsJson "Failed to delete task" RecordNotFound)),
         w')
      /\ tasks (db w') = tasks (db sample_world)
      /\ labels (db w') = labels (db sample_world)
      /\ (references_exist (db sample_world) -> db w' = db sample_world).
Proof.
  split; [reflexivity|]. split; [reflexivity|].
  apply (DELETE_unknown_task delete_unknown "c9" sample_world);
    try reflexivity.
  discriminate.
Defined.

(** ** Deleting, then deleting or listing again; creating, then deleting *)

Lemma find_filter_negb {A} (p : A -> bool) (l : list A) :
  find p (filter (fun a => negb (p a)) l) = None.
Proof.
  induction l as [|x l IH]; simpl; [reflexivity|].
  destruct (p x) eqn:E; simpl; [exact IH|]. now rewrite E.
Qed.

Lemma filter_twice {A} (p : A -> bool) (l : list A) :
  filter p (filter p l) = filter p l.
Proof.
  apply filter_all. intros a Ha. now apply filter_In in Ha.
Qed.

Lemma DELETE_200 (request : Request) (w w' : World) (response : Response) :
  DELETE request w = (Ok response, w') ->
  status response = 200 ->
  exists id row,
    searchParams_get "id" (searchParams request) = Some id
    /\ id <> ""
    /\ response = mkResponse 200 (DeletedJson true "Task deleted successfully" row)
    /\ find (fun t => Task.id t =? id) (tasks (db w)) = Some row
    /\ db w' = mkDb (filter (fun t => negb (Task.id t =? id)) (tasks (db w)))
                    (labels (db w))
                    (filter (fun tl => negb (TaskLabel.taskId tl =? id))
                            (taskLabels (db w))).
Proof.
  intros Hrun Hstatus.
  destruct (missing_or_id (searchParams_get "id" (searchParams request)))
    as [Hmiss|[id [Hid Hne]]].
  { rewrite (DELETE_no_id request w Hmiss) in Hrun. injection Hrun as <- <-.
    discriminate. }
  destruct (DELETE_db request id w Hid Hne) as [r [w1 [Hrun' Hdb]]].
  rewrite Hrun in Hrun'. injection Hrun' as <- <-.
  destruct Hdb as [[H500 _]|[[H500 _]|[row [Hr [Hfind Hdb]]]]];
    [congruence|congruence|].
  exists id, row. auto.
Qed.

Lemma DELETE_not_found (request : Request) (id : string) (w : World) :
  searchParams_get "id" (searchParams request) = Some id ->
  id <> "" ->
  hd false (faults w) = false ->
  hd false (tl (faults w)) = false ->
  find (fun t => Task.id t =? id) (tasks (db w)) = None ->
  exists w',
    DELETE request w
    = (Ok (mkResponse 500 (ErrorDetailsJson "Failed to delete task" RecordNotFound)), w')
    /\ db w' = mkDb (tasks (db w)) (labels (db w))
                    (filter (fun tl => negb (TaskLabel.taskId tl =? id))
                            (taskLabels (db w))).
Proof.
  intros Hid Hne Hup1 Hup2 Hnone.
  unfold DELETE, try_catch, taskLabel_deleteMany, task_delete.
  rewrite Hid, (missing_false id Hne). unfold_monad.
  rewrite (engine_call_ok w Hup1). simpl.
  rewrite engine_call_ok by exact Hup2. simpl. rewrite Hnone.
  eexists. split; reflexivity.
Qed.

Lemma DELETE_found (request : Request) (id : string) (w : World) (row : Task.t) :
  searchParams_get "id" (searchParams request) = Some id ->
  id <> "" ->
  hd false (faults w) = false ->
  hd false (tl (faults w)) = false ->
  find (fun t => Task.id t =? id) (tasks (db w)) = Some row ->
  exists w',
    DELETE request w
    = (Ok (mkResponse 200 (DeletedJson true "Task deleted successfully" row)), w')
    /\ db w' = mkDb (filter (fun t => negb (Task.id t =? id)) (tasks (db w)))
                    (labels (db w))
                    (filter (fun tl => negb (TaskLabel.taskId tl =? id))
                            (taskLabels (db w))).
Proof.
  intros Hid Hne Hup1 Hup2 Hrow.
  unfold DELETE, try_catch, taskLabel_deleteMany, task_delete.
  rewrite Hid, (missing_false id Hne). unfold_monad.
  rewrite (engine_call_ok w Hup1). simpl.
  rewrite engine_call_ok by exact Hup2. simpl. rewrite Hrow.
  rewrite (existsb_filter_negb (fun tl => TaskLabel.taskId tl =? id)).
  eexists. split; reflexivity.
Qed.

(** X14. Deleting is not idempotent in its answer: after a delete request
    answered 200, the same request again, with the engine up, is answered
    500 with the not-found error, and changes nothing. *)
Theorem DELETE_again_is_not_found (request : Request) (w w' : World) (response : Response) :
  DELETE request w = (Ok response, w') ->
  status response = 200 ->
  hd false (faults w') = false ->
  hd false (tl (faults w')) = false ->
  exists w'',
    DELETE request w'
    = (Ok (mkResponse 500 (ErrorDetailsJson "Failed to delete task" RecordNotFound)), w'')
    /\ db w'' = db w'.
Proof.
  intros Hrun Hstatus Hup1 Hup2.
  destruct (DELETE_200 request w w' response Hrun Hstatus)
    as [id [row [Hid [Hne [_ [_ Hdb]]]]]].
  destruct (DELETE_not_found request id w' Hid Hne Hup1 Hup2) as [w'' [Hrun2 Hdb2]].
  { rewrite Hdb. simpl. apply (find_filter_negb (fun t => Task.id t =? id)). }
  exists w''. split; [exact Hrun2|].
  rewrite Hdb2, Hdb. simpl. now rewrite filter_twice.
Qed.

(** X15. After a delete request answered 200, no list request, whatever
    its filters, returns a task with the deleted id. *)
Theorem deleted_task_is_not_listed
    (request listing : Request) (w w' : World) (response : Response) :
  DELETE request w = (Ok response, w') ->
  status response = 200 ->
  hd false (faults w') = false ->
  exists listed w'',
    GET listing w' = (Ok (mkResponse 200 (TasksJson listed)), w'')
    /\ forall entry, In entry listed ->
         Some (Task.id (task entry)) <> searchParams_get "id" (searchParams request).
Proof.
  intros Hrun Hstatus Hup.
  destruct (DELETE_200 request w w' response Hrun Hstatus)
    as [id [row [Hid [_ [_ [_ Hdb]]]]]].
  do 2 eexists. split; [exact (GET_ok listing w' Hup)|].
  intros entry Hin. apply in_map_iff in Hin. destruct Hin as [t [<- Hin]]. simpl.
  rewrite order_by_dueDate_In in Hin. apply filter_In in Hin. destruct Hin as [Hin _].
  rewrite Hdb in Hin. simpl in Hin. apply filter_In in Hin. destruct Hin as [_ Hkeep].
  rewrite Hid. intros Heq. injection Heq as Heq.
  rewrite Heq, String.eqb_refl in Hkeep. discriminate.
Qed.

Lemma filter_removes_all {A} (p : A -> bool) (l : list A) :
  (forall a, In a l -> p a = false) -> filter p l = [].
Proof.
  induction l as [|x l IH]; intros H; simpl; [reflexivity|].
  rewrite (H x (or_introl eq_refl)). apply IH. intros a Ha. apply H. now right.
Qed.

Section CreateThenDelete.

Variable Date_getTime : jsval -> option Z.
Variable cuid : nat -> string.

(** X16. Round trip.  A create request answered 200 on a database where
    the new id is not in use, followed by a delete request for the id it
    returned, with the engine up: the delete is answered 200 with the
    created row, and the task and association tables are back to what they
    were before the create.  The label table is not: the label rows the
    create inserted stay. *)
Theorem created_task_can_be_deleted
    (request : Request) (data : Data.t) (w w1 : World) (response : Response) :
  json request = Some data ->
  POST Date_getTime cuid request w = (Ok response, w1) ->
  status response = 200 ->
  cuid (cuids w) <> "" ->
  (forall t, In t (tasks (db w)) -> Task.id t <> cuid (cuids w)) ->
  (forall tl, In tl (taskLabels (db w)) -> TaskLabel.taskId tl <> cuid (cuids w)) ->
  hd false (faults w1) = false ->
  hd false (tl (faults w1)) = false ->
  exists row w2,
    body response = TaskJson row
    /\ DELETE (mkRequest [("id", Task.id row)] None) w1
       = (Ok (mkResponse 200 (DeletedJson true "Task deleted successfully" row)), w2)
    /\ tasks (db w2) = tasks (db w)
    /\ taskLabels (db w2) = taskLabels (db w)
    /\ labels (db w2) = labels (db w1).
Proof.
  intros Hjson Hrun Hstatus Hne Hfresh_t Hfresh_tl Hup1 Hup2.
  destruct (POST_200 Date_getTime cuid request data w w1 response Hjson Hrun Hstatus)
    as [row [-> [_ Hcreate]]].
  destruct (create_task_ok cuid data _ w w1 row Hcreate) as [w0 [Htask Hloop]].
  destruct (task_create_ok cuid _ w w0 row Htask)
    as [_ [_ [_ [_ [_ [Hid [_ Hdb0]]]]]]].
  destruct (process_labels_ok cuid (Task.id row) (labelData_of data) w0 w1 tt Hloop)
    as [Htasks [[added [Happ [_ [Hall _]]]] _]].
  rewrite Hdb0 in Htasks, Happ. simpl in Htasks, Happ.
  assert (Hfind : find (fun t => Task.id t =? Task.id row) (tasks (db w1)) = Some row).
  { rewrite Htasks, find_app_none.
    - simpl. now rewrite String.eqb_refl.
    - destruct (find _ (tasks (db w))) as [t|] eqn:E; [|reflexivity].
      destruct (find_some _ _ E) as [Hin Heq]. apply String.eqb_eq in Heq.
      rewrite Hid in Heq. now destruct (Hfresh_t t Hin). }
  destruct (DELETE_found (mkRequest [("id", Task.id row)] None) (Task.id row) w1 row)
    as [w2 [Hdel Hdb2]]; auto.
  { now rewrite Hid. }
  exists row, w2. split; [reflexivity|]. split; [exact Hdel|].
  rewrite Hdb2. simpl. rewrite Htasks, Happ, !filter_app. simpl.
  rewrite String.eqb_refl. simpl. rewrite app_nil_r.
  rewrite (filter_removes_all _ added).
  2:{ intros tl Hin. rewrite (Hall tl Hin), String.eqb_refl. reflexivity. }
  rewrite app_nil_r. repeat split.
  - apply (filter_nothing_to_remove (fun t => Task.id t =? Task.id row)).
    intros t Hin. apply String.eqb_neq. rewrite Hid. now apply Hfresh_t.
  - apply (filter_nothing_to_remove (fun tl => TaskLabel.taskId tl =? Task.id row)).
    intros tl Hin. apply String.eqb_neq. rewrite Hid. now apply Hfresh_tl.
Qed.

End CreateThenDelete.

Lemma DELETE_again_is_not_found_witness :
  DELETE delete_report sample_world
  = (Ok (mkResponse 200 (DeletedJson true "Task deleted successfully" report_task)),
     after_delete_report)
  /\ exists w'',
      DELETE delete_report after_delete_report
      = (Ok (mkResponse 500 (ErrorDetailsJson "Failed to delete task" RecordNotFound)),
         w'')
      /\ db w'' = db after_delete_report.
Proof.
  split; [reflexivity|].
  apply (DELETE_again_is_not_found delete_report sample_world after_delete_report
           (mkResponse 200 (DeletedJson true "Task deleted successfully" report_task)));
    reflexivity.
Defined.

Lemma deleted_task_is_not_listed_witness :
  DELETE delete_report sample_world
  = (Ok (mkResponse 200 (DeletedJson true "Task deleted successfully" report_task)),
     after_delete_report)
  /\ exists listed w'',
      GET list_all after_delete_report = (Ok (mkResponse 200 (TasksJson listed)), w'')
      /\ forall entry, In entry listed ->
           Some (Task.id (task entry))
           <> searchParams_get "id" (searchParams delete_report).
Proof.
  split; [reflexivity|].
  apply (deleted_task_is_not_listed delete_report list_all sample_world
           after_delete_report
           (mkResponse 200 (DeletedJson true "Task deleted successfully" report_task)));
    reflexivity.
Defined.

Lemma created_task_can_be_deleted_witness :
  POST example_Date_getTime example_cuid (post with_new_label) sample_world
  = (Ok (mkResponse 200 (TaskJson trip_row)), after_trip)
  /\ exists row w2,
      body (mkResponse 200 (TaskJson trip_row)) = TaskJson row
      /\ DELETE (mkRequest [("id", Task.id row)] None) after_trip
         = (Ok (mkResponse 200 (DeletedJson true "Task deleted successfully" row)), w2)
      /\ tasks (db w2) = tasks (db sample_world)
      /\ taskLabels (db w2) = taskLabels (db sample_world)
      /\ labels (db w2) = labels (db after_trip).
Proof.
  split; [reflexivity|].
  apply (created_task_can_be_deleted example_Date_getTime example_cuid
           (post with_new_label) with_new_label sample_world after_trip
           (mkResponse 200 (TaskJson trip_row))); try reflexivity.
  - discriminate.
  - intros t [<-|[<-|[<-|[]]]]; discriminate.
  - intros tl [<-|[]]; discriminate.
Defined.

Lemma POST_stores_given_strings_witness :
  json (post (Data.mk (JStr "") JUndefined (JStr "URGENT") (JStr "SOMEDAY") JUndefined None))
  = Some (Data.mk (JStr "") JUndefined (JStr "URGENT") (JStr "SOMEDAY") JUndefined None)
  /\ POST example_Date_getTime example_cuid
       (post (Data.mk (JStr "") JUndefined (JStr "URGENT") (JStr "SOMEDAY") JUndefined None))
       fresh_world
     = (let row := Task.mk (example_cuid (cuids fresh_world)) "" None "URGENT" "SOMEDAY"
                     None (now fresh_world) (now fresh_world) in
        (Ok (mkResponse 200 (TaskJson row)),
         mkWorld (mkDb (tasks (db fresh_world) ++ [row]) (labels (db fresh_world))
                       (taskLabels (db fresh_world)))
                 (tl (faults fresh_world)) (S (cuids fresh_world)) (now fresh_world))).
Proof.
  split; [reflexivity|].
  apply (POST_stores_given_strings example_Date_getTime example_cuid
           (post (Data.mk (JStr "") JUndefined (JStr "URGENT") (JStr "SOMEDAY")
                    JUndefined None))
           "" "URGENT" "SOMEDAY" fresh_world); reflexivity.
Defined.

(** ** Two more edges *)

Section NamelessEntry.

Variable cuid : nat -> string.

(** X18. A label entry with no name, the engine being up.  The lookup then
    carries no filter and returns the first label row of the table, whatever
    its name: the task gets associated with that row and no label is
    created.  When the table has no label row, the round throws on the
    missing name and writes nothing. *)
Theorem nameless_entry_takes_first_label
    (tid : string) (requested : jsval) (w : World) :
  faults w = [] ->
  (exists t, In t (tasks (db w)) /\ Task.id t = tid) ->
  (forall first rest,
      labels (db w) = first :: rest ->
      ~ In (TaskLabel.mk tid (Label.id first)) (taskLabels (db w)) ->
      process_label cuid tid (LabelData.mk JUndefined requested) w
      = (Ok tt,
         mkWorld (mkDb (tasks (db w)) (labels (db w))
                       (taskLabels (db w) ++ [TaskLabel.mk tid (Label.id first)]))
                 [] (cuids w) (now w)))
  /\ (labels (db w) = [] ->
      process_label cuid tid (LabelData.mk JUndefined requested) w
      = (Throw (PrismaClientValidationError "name"), w)).
Proof.
  intros Hquiet [t [Ht Htid]].
  assert (Htask : existsb (fun t0 => Task.id t0 =? tid) (tasks (db w)) = true).
  { apply existsb_exists. exists t. split; [exact Ht|]. now apply String.eqb_eq. }
  destruct w as [d fs k clk]. simpl in *. subst fs. split.
  - intros first rest Hlabels Hnew.
    unfold process_label, label_findFirst, taskLabel_create, engine_call.
    unfold_monad. simpl. rewrite Hlabels. simpl.
    rewrite (existsb_pair_false _ _ _ Hnew), Htask. simpl.
    rewrite Hlabels. simpl. rewrite String.eqb_refl. reflexivity.
  - intros Hlabels.
    unfold process_label, label_findFirst, label_create, engine_call.
    unfold_monad. simpl. rewrite Hlabels. reflexivity.
Qed.

End NamelessEntry.

Lemma nameless_entry_takes_first_label_witness :
  faults sample_world = []
  /\ process_label example_cuid "c2" (LabelData.mk JUndefined (JStr "#00ff00"))
       sample_world
     = (Ok tt,
        mkWorld (mkDb (tasks (db sample_world)) (labels (db sample_world))
                      (taskLabels (db sample_world)
                       ++ [TaskLabel.mk "c2" (Label.id work_label)]))
                [] (cuids sample_world) (now sample_world)).
Proof.
  split; [reflexivity|].
  apply (proj1 (nameless_entry_takes_first_label example_cuid "c2" (JStr "#00ff00")
                  sample_world eq_refl
                  (ex_intro _ walk_task (conj (or_intror (or_introl eq_refl)) eq_refl)))
           work_label []).
  - reflexivity.
  - intros [H|[]]. discriminate.
Defined.

(** X19. Because the associations of the task are deleted before the task
    row, a delete request never fails on the relation between the two: the
    details of a 500 are never a foreign-key violation. *)
Theorem DELETE_never_violates_relation
    (request : Request) (w w' : World) (response : Response)
    (error target : string) :
  DELETE request w = (Ok response, w') ->
  body response <> ErrorDetailsJson error (ForeignKeyViolation target).
Proof.
  intros Hrun.
  destruct (missing_or_id (searchParams_get "id" (searchParams request)))
    as [Hmiss|[id [Hid Hne]]].
  { rewrite (DELETE_no_id request w Hmiss) in Hrun. injection Hrun as <- <-.
    discriminate. }
  rewrite (DELETE_runs request id w Hid Hne) in Hrun.
  pose proof (taskLabel_deleteMany_db id w) as H1.
  destruct (taskLabel_deleteMany id w) as [[k|e] w1].
  - destruct H1 as [Hdb1 _].
    pose proof (task_delete_db id w1) as H2.
    destruct (task_delete id w1) as [[row|e] w2].
    + injection Hrun as <- <-. discriminate.
    + injection Hrun as <- <-. simpl.
      destruct H2 as [_ [->|[[-> _]|[-> [tl [Hin Htid]]]]]]; try discriminate.
      rewrite Hdb1 in Hin. simpl in Hin. apply filter_In in Hin.
      destruct Hin as [_ Hkeep]. rewrite Htid, String.eqb_refl in Hkeep. discriminate.
  - destruct H1 as [_ [-> _]]. injection Hrun as <- <-. discriminate.
Qed.

Lemma DELETE_never_violates_relation_witness :
  DELETE delete_report second_call_fails
  = (Ok (mkResponse 500 (ErrorDetailsJson "Failed to delete task" StorageFailure)),
     half_deleted)
  /\ body (mkResponse 500 (ErrorDetailsJson "Failed to delete task" StorageFailure))
     <> ErrorDetailsJson "Failed to delete task"
          (ForeignKeyViolation "TaskLabel_taskId_fkey").
Proof.
  split; [reflexivity|].
  apply (DELETE_never_violates_relation delete_report second_call_fails half_deleted
           (mkResponse 500 (ErrorDetailsJson "Failed to delete task" StorageFailure))
           "Failed to delete task" "TaskLabel_taskId_fkey").
  reflexivity.
Defined.
